(** * PydantiAI-MCP: the tool servers, embedded and verified

    The repository holds three small MCP servers written in Python:

    - [SQLite Explorer/server.py]: a low-level MCP server with six SQL tools,
      one memo resource and one prompt, and [create_db.py], which seeds the
      database the server works on;
    - [Github-Users-MCP/server.py]: one FastMCP tool, [github_search];
    - [mcp-agent-multi-tools/server.py]: six FastMCP tools, among them [add].

    The Python functions are embedded as Rocq functions.  A function that can
    raise returns a [result]; a function that changes the server object or
    talks to a collaborator threads the state explicitly.  The collaborators
    that are not part of the repository (the [sqlite3] engine, the MCP
    session, the HTTP client, the parts of [str] that depend on the Unicode
    database) are interfaces, so that every general theorem holds for each
    implementation of them; the closed scenarios run on the small executable
    implementations given further down. *)

From Stdlib Require Import String Ascii List ZArith NArith Bool Lia DecimalString.
From Stdlib Require Import Floats.
Import ListNotations.

Local Open Scope list_scope.
Local Open Scope string_scope.
Set Warnings "-register-all".

(** ** Python values and exceptions *)

(** An instance of [Exception]: its class name and the text [str(e)] gives.
    Signals that derive from [BaseException] only (task cancellation,
    [KeyboardInterrupt]) are asynchronous and not part of this model. *)
Record exn : Type := mkExn { exn_class : string; exn_str : string }.

Inductive result (A : Type) : Type :=
| Return (a : A)
| Raise (e : exn).
Arguments Return {A} a.
Arguments Raise {A} e.

(** The values that travel through the servers: JSON arguments, SQL cells and
    the lists and dicts built from them.  A [float] is carried as the text
    [repr] prints for it, which determines it; the servers only print floats
    and test them for truth. *)
Inductive pyval : Type :=
| VNone
| VBool (b : bool)
| VInt (z : Z)
| VFloat (r : string)
| VStr (s : string)
| VBytes (s : string)
| VList (l : list pyval)
| VDict (d : list (string * pyval)).

Definition pydict : Type := list (string * pyval).

(** [bool(v)]. *)
Definition truthy (v : pyval) : bool :=
  match v with
  | VNone => false
  | VBool b => b
  | VInt z => negb (Z.eqb z 0)
  | VFloat r => negb (String.eqb r "0.0" || String.eqb r "-0.0")
  | VStr s => negb (String.eqb s "")
  | VBytes s => negb (String.eqb s "")
  | VList l => match l with [] => false | _ => true end
  | VDict d => match d with [] => false | _ => true end
  end.

(** [type(v).__name__]. *)
Definition type_name (v : pyval) : string :=
  match v with
  | VNone => "NoneType"
  | VBool _ => "bool"
  | VInt _ => "int"
  | VFloat _ => "float"
  | VStr _ => "str"
  | VBytes _ => "bytes"
  | VList _ => "list"
  | VDict _ => "dict"
  end.

(** [d.get(k)] on a dict whose keys are strings. *)
Fixpoint dict_get (d : pydict) (k : string) : option pyval :=
  match d with
  | [] => None
  | (k', v) :: d' => if String.eqb k' k then Some v else dict_get d' k
  end.

Definition LF : string := String (ascii_of_nat 10) EmptyString.

(** [s.startswith(p)] and [s.startswith((p1, ..., pn))]. *)
Definition startswith (s p : string) : bool := String.prefix p s.

Definition startswith_any (s : string) (ps : list string) : bool :=
  existsb (startswith s) ps.

(** [sep.join(parts)]. *)
Definition join (sep : string) (parts : list string) : string :=
  String.concat sep parts.

(** [str(z)] for an [int]. *)
Definition str_of_int (z : Z) : string := NilZero.string_of_int (Z.to_int z).

(** The part of [str] and [bytes] that depends on the interpreter's Unicode
    tables: [s.strip()], [s.upper()], [repr(s)] and [repr(b)]. *)
Class PyText : Type := {
  str_strip : string -> string;
  str_upper : string -> string;
  str_repr : string -> string;
  bytes_repr : string -> string
}.

Section Repr.
Context {txt : PyText}.

(** [repr(v)]. *)
Fixpoint py_repr (v : pyval) : string :=
  match v with
  | VNone => "None"
  | VBool true => "True"
  | VBool false => "False"
  | VInt z => str_of_int z
  | VFloat r => r
  | VStr s => str_repr s
  | VBytes s => bytes_repr s
  | VList l => "[" ++ join ", " (map py_repr l) ++ "]"
  | VDict d =>
      "{" ++ join ", "
               (map (fun kv => match kv with
                               | (k, x) => str_repr k ++ ": " ++ py_repr x
                               end) d) ++ "}"
  end.

(** [str(v)], which is also what an f-string field [{v}] prints. *)
Definition py_str (v : pyval) : string :=
  match v with
  | VStr s => s
  | _ => py_repr v
  end.

Definition ValueError (msg : string) : exn := mkExn "ValueError" msg.
Definition TypeError (msg : string) : exn := mkExn "TypeError" msg.
Definition AttributeError (msg : string) : exn := mkExn "AttributeError" msg.
(** [str(KeyError(k))] is [repr(k)]. *)
Definition KeyError (k : string) : exn := mkExn "KeyError" (str_repr k).

(** [args[k]] where [args] is a dict or [None]. *)
Definition subscript (args : option pydict) (k : string) : result pyval :=
  match args with
  | None => Raise (TypeError "'NoneType' object is not subscriptable")
  | Some d =>
      match dict_get d k with
      | Some v => Return v
      | None => Raise (KeyError k)
      end
  end.

(** [q.strip().upper().startswith(ps)]: [q] has to be a [str]; [bytes] has
    the first two methods but refuses a [str] prefix, every other value has
    no [strip]. *)
Definition strip_upper_startswith (q : pyval) (ps : list string) : result bool :=
  match q with
  | VStr s => Return (startswith_any (str_upper (str_strip s)) ps)
  | VBytes _ =>
      Raise (TypeError
               "startswith first arg must be bytes or a tuple of bytes, not str")
  | _ =>
      Raise (AttributeError
               ("'" ++ type_name q ++ "' object has no attribute 'strip'"))
  end.
End Repr.

(** ** The [result] monad over a state

    [M S A] is a Python computation that reads and writes a state [S] and
    either returns an [A] or raises.  What was written before a [raise]
    stays written. *)

Definition M (S A : Type) : Type := S -> S * result A.

Definition ret {S A : Type} (a : A) : M S A := fun st => (st, Return a).

Definition raise {S A : Type} (e : exn) : M S A := fun st => (st, Raise e).

Definition lift {S A : Type} (r : result A) : M S A := fun st => (st, r).

Definition bind {S A B : Type} (m : M S A) (k : A -> M S B) : M S B :=
  fun st =>
    match m st with
    | (st', Return a) => k a st'
    | (st', Raise e) => (st', Raise e)
    end.

(** [try: body except Exception as e: handler(e)]. *)
Definition try_except {S A : Type} (body : M S A) (handler : exn -> M S A) : M S A :=
  fun st =>
    match body st with
    | (st', Return a) => (st', Return a)
    | (st', Raise e) => handler e st'
    end.

Declare Scope py_scope.
Delimit Scope py_scope with py.
Notation "x <- c ;; k" := (bind c (fun x => k))
  (at level 61, c at next level, right associativity) : py_scope.
Notation "c ;;; k" := (bind c (fun _ => k))
  (at level 61, right associativity) : py_scope.

(** ** The [sqlite3] module

    The engine is a collaborator.  A [Db] is the content of the database
    file, a [Connection] an open connection together with the transaction
    it may have pending.  [execute] can fail, and hands back the cursor
    when it does not; [cur.fetchall()] can fail as well, on a row it cannot
    decode, and so can [conn.commit()], which SQLite refuses while a
    statement of the connection still has rows to hand out.  A connection
    that is closed loses what it has not committed. *)

(** The columns of one [sqlite3.Row], in order. *)
Definition Row : Type := list (string * pyval).

Record Cursor : Type := mkCursor {
  rowcount : Z;
  fetchall : result (list Row)
}.

Class Sqlite3 : Type := {
  Db : Type;
  Connection : Type;
  connect : Db -> Connection;
  execute : Connection -> string -> option pyval -> Connection * result Cursor;
  commit : Connection -> Connection * result unit;
  close : Connection -> Db
}.

Definition is_ascii (s : string) : bool :=
  forallb (fun c => Nat.ltb (nat_of_ascii c) 128) (list_ascii_of_string s).

Definition ascii_lower (c : ascii) : ascii :=
  let n := nat_of_ascii c in
  if Nat.leb 65 n && Nat.leb n 90 then ascii_of_nat (n + 32) else c.

Definition lower_ascii (s : string) : string :=
  string_of_list_ascii (map ascii_lower (list_ascii_of_string s)).

(** Column names of a [Row] match when they are equal, or when both are
    ASCII and equal up to case. *)
Definition equal_ignore_case (a b : string) : bool :=
  String.eqb a b
  || (is_ascii a && is_ascii b && String.eqb (lower_ascii a) (lower_ascii b)).

(** [r[k]] for a column name [k] that [r.keys()] lists: the first column
    whose name matches. *)
Fixpoint row_getitem (r : Row) (k : string) : pyval :=
  match r with
  | [] => VNone
  | (k', v) :: r' => if equal_ignore_case k' k then v else row_getitem r' k
  end.

(** [dict(r)]: one entry per distinct key of [r.keys()], at the place of its
    first occurrence, holding [r[k]]. *)
Fixpoint dict_keys (seen keys : list string) : list string :=
  match keys with
  | [] => []
  | k :: ks =>
      if existsb (String.eqb k) seen then dict_keys seen ks
      else k :: dict_keys (k :: seen) ks
  end.

Definition dict_of_row (r : Row) : pydict :=
  map (fun k => (k, row_getitem r k)) (dict_keys [] (map fst r)).

(** ** The MCP session

    [send_resource_updated] writes one notification to the client.  The
    session keeps what it has delivered in [outbox]; [faults] scripts the
    fate of the coming sends, so that a transport that fails can be run:
    [Some e] makes the next send raise [e] and deliver nothing, [None] (or an
    exhausted script) delivers. *)

Record AnyUrl : Type := mkUrl {
  scheme : string;
  host : option string;
  url_str : string
}.

Record Session : Type := mkSession {
  outbox : list AnyUrl;
  faults : list (option exn)
}.

Definition send_resource_updated (uri : AnyUrl) : M Session unit :=
  fun s =>
    match faults s with
    | Some e :: rest => (mkSession (outbox s) rest, Raise e)
    | None :: rest => (mkSession (outbox s ++ [uri])%list rest, Return tt)
    | [] => (mkSession (outbox s ++ [uri])%list [], Return tt)
    end.

(** ** [SQLite Explorer/server.py] *)

Module SqliteServer.
Section Server.
Context {txt : PyText} {sql : Sqlite3}.

(** The process: the database file behind [DB_PATH], the [insights] list
  of the [SqliteDatabase] object [db], and the session of the request
  being served. *)
Record ServerState : Type := mkState {
database : Db;
insights : list pyval;
session : Session
}.

Definition mutation_prefixes : list string :=
["INSERT"; "UPDATE"; "DELETE"; "CREATE"; "DROP"; "ALTER"].

(** [if params: cur.execute(query, params) else: cur.execute(query)]: the
  parameters that reach the engine. *)
Definition passed (params : option pyval) : option pyval :=
match params with
| Some p => if truthy p then Some p else None
| None => None
end.

(** [SqliteDatabase._execute_query], on the database file.  Both [with
  closing(...)] blocks end in [close], on a return and on a raise. *)
Definition _execute_query (query : pyval) (params : option pyval)
: M Db pyval :=
fun file =>
  let conn := connect file in
  match query with
  | VStr q =>
      let '(conn1, r) := execute conn q (passed params) in
      match r with
      | Raise e => (close conn1, Raise e)
      | Return cur =>
          if startswith_any (str_upper (str_strip q)) mutation_prefixes
          then
            match commit conn1 with
            | (conn2, Return _) =>
                (close conn2,
                 Return (VList [VDict [("affected_rows", VInt (rowcount cur))]]))
            | (conn2, Raise e) => (close conn2, Raise e)
            end
          else
            match fetchall cur with
            | Return rows =>
                (close conn1,
                 Return (VList (map (fun r => VDict (dict_of_row r)) rows)))
            | Raise e => (close conn1, Raise e)
            end
      end
  | _ =>
      (close conn,
       Raise (TypeError ("execute() argument 1 must be str, not "
                         ++ type_name query)))
  end.

(** [SqliteDatabase.synthesize_memo]. *)
Definition synthesize_memo (ins : list pyval) : string :=
match ins with
| [] => "No business insights have been recorded yet."
| _ =>
    let lines := join LF (map (fun i => "- " ++ py_str i) ins) in
    let memo := "📊 Business Insights Memo 📊" ++ LF ++ LF
                ++ "Key Insights:" ++ LF ++ lines in
    if Nat.ltb 1 (List.length ins)
    then memo ++ LF ++ LF ++ "Summary:" ++ LF
         ++ str_of_int (Z.of_nat (List.length ins))
         ++ " insights suggest strategic opportunities."
    else memo
end.

(** [db = SqliteDatabase(DB_PATH)]: the file is created if missing (an
  existing one is left as it is) and the insight list starts empty. *)
Definition SqliteDatabase (file : Db) (s : Session) : ServerState :=
mkState (close (connect file)) [] s.

(** [db._execute_query(...)] from a handler. *)
Definition db_execute_query (query : pyval) (params : option pyval)
: M ServerState pyval :=
fun st =>
  let '(file, r) := _execute_query query params (database st) in
  (mkState file (insights st) (session st), r).

(** [db.insights.append(itm)]. *)
Definition insights_append (itm : pyval) : M ServerState unit :=
fun st =>
  (mkState (database st) (insights st ++ [itm])%list (session st), Return tt).

(** [await server.request_context.session.send_resource_updated(uri)]. *)
Definition session_send_resource_updated (uri : AnyUrl) : M ServerState unit :=
fun st =>
  let '(s, r) := send_resource_updated uri (session st) in
  (mkState (database st) (insights st) s, r).

Definition memo_uri : AnyUrl := mkUrl "memo" (Some "insights") "memo://insights".

(** *** Resources *)

Record Resource : Type := mkResource {
uri : AnyUrl;
resource_name : string;
resource_description : string;
mimeType : string
}.

Definition _list_resources : M ServerState (list Resource) :=
ret [ mkResource memo_uri "Business Insights Memo"
        "A running log of insights generated during analysis"
        "text/plain" ].

Definition _read_resource (u : AnyUrl) : M ServerState string :=
fun st =>
  if negb (String.eqb (scheme u) "memo")
     || negb (match host u with
              | Some h => String.eqb h "insights"
              | None => false
              end)
  then (st, Raise (ValueError ("Unknown resource: " ++ url_str u)))
  else (st, Return (synthesize_memo (insights st))).

(** *** Tools *)

Record Tool : Type := mkTool {
name : string;
description : string;
inputSchema : pyval
}.

Record TextContent : Type := mkText {
type : string;
text : string
}.

(** [{"type":"object","required":[p],"properties":{p:{"type":"string"}}}]. *)
Definition string_schema (p : string) : pyval :=
VDict [ ("type", VStr "object");
        ("required", VList [VStr p]);
        ("properties", VDict [(p, VDict [("type", VStr "string")])]) ].

Definition _list_tools : M ServerState (list Tool) :=
ret [ mkTool "create_table" "Create a new table (CREATE TABLE...)"
        (string_schema "query");
      mkTool "read_query" "Run a SELECT query" (string_schema "query");
      mkTool "write_query" "Run an INSERT/UPDATE/DELETE"
        (string_schema "query");
      mkTool "list_tables" "List all table names"
        (VDict [("type", VStr "object"); ("properties", VDict [])]);
      mkTool "describe_table"
        "Describe columns of a table (PRAGMA table_info)"
        (string_schema "table_name");
      mkTool "append_insight" "Add a business insight to the memo"
        (string_schema "insight") ].

Definition list_tables_query : string :=
"SELECT name FROM sqlite_master WHERE type='table' ORDER BY name;".

Local Open Scope py_scope.

(** The [try] block of [_call_tool]. *)
Definition _call_tool_try (name : string) (args : option pydict)
: M ServerState (list TextContent) :=
if String.eqb name "list_tables" then
  rows <- db_execute_query (VStr list_tables_query) None ;;
  ret [mkText "text" (py_str rows)]
else if String.eqb name "describe_table" then
  let tbl := match args with
             | None | Some [] => VNone
             | Some d =>
                 match dict_get d "table_name" with
                 | Some v => v
                 | None => VNone
                 end
             end in
  if negb (truthy tbl) then raise (ValueError "Missing 'table_name'")
  else
    rows <- db_execute_query
              (VStr ("PRAGMA table_info(" ++ py_str tbl ++ ");")) None ;;
    ret [mkText "text" (py_str rows)]
else if String.eqb name "create_table" then
  q <- lift (subscript args "query") ;;
  ok <- lift (strip_upper_startswith q ["CREATE TABLE"]) ;;
  if negb ok then raise (ValueError "create_table only supports CREATE TABLE")
  else
    res <- db_execute_query q None ;;
    ret [mkText "text" (py_str res)]
else if String.eqb name "read_query" then
  q <- lift (subscript args "query") ;;
  ok <- lift (strip_upper_startswith q ["SELECT"]) ;;
  if negb ok then raise (ValueError "read_query only supports SELECT")
  else
    rows <- db_execute_query q None ;;
    ret [mkText "text" (py_str rows)]
else if String.eqb name "write_query" then
  q <- lift (subscript args "query") ;;
  sel <- lift (strip_upper_startswith q ["SELECT"]) ;;
  if sel then raise (ValueError "write_query does not support SELECT")
  else
    res <- db_execute_query q None ;;
    ret [mkText "text" (py_str res)]
else if String.eqb name "append_insight" then
  itm <- lift (subscript args "insight") ;;
  insights_append itm ;;;
  session_send_resource_updated memo_uri ;;;
  ret [mkText "text" "Insight appended"]
else
  raise (ValueError ("Unknown tool: " ++ name)).

(** [_call_tool]: the [try] block under [except Exception as e]. *)
Definition _call_tool (name : string) (args : option pydict)
: M ServerState (list TextContent) :=
try_except (_call_tool_try name args)
  (fun e => ret [mkText "text" ("Error: " ++ exn_str e)]).
End Server.
End SqliteServer.

(** ** [SQLite Explorer/create_db.py] *)

(** What the script asks of the operating system: the [k]-th draw of
    [random.randint(a, b)], and the text of
    [(datetime.now() - timedelta(days=d)).isoformat()] where [d] was the
    [k]-th draw. *)
Class Entropy : Type := {
  randint : nat -> Z -> Z -> Z;
  isoformat_days_ago : nat -> Z -> string
}.

Module CreateDb.
Section Script.
Context {sql : Sqlite3} {os : Entropy}.

(** The running script: its connection and the number of random draws
  made so far. *)
Record Proc : Type := mkProc { conn : Connection; draws : nat }.

(** [cur.execute(q)] and [cur.execute(q, params)]; the tuple of parameters
  is passed as a [VList]. *)
Definition cur_execute (q : string) (params : option pyval) : M Proc unit :=
fun p =>
  match execute (conn p) q params with
  | (c, Return _) => (mkProc c (draws p), Return tt)
  | (c, Raise e) => (mkProc c (draws p), Raise e)
  end.

(** [random.randint(a, b)]: the value and the index of the draw. *)
Definition random_randint (a b : Z) : M Proc (nat * Z) :=
fun p => (mkProc (conn p) (S (draws p)), Return (draws p, randint (draws p) a b)).

Definition create_users : string :=
"
        CREATE TABLE users (
            id INTEGER PRIMARY KEY AUTOINCREMENT,
            name TEXT NOT NULL,
            email TEXT NOT NULL UNIQUE,
            signup_date TEXT NOT NULL
        );
    ".

Definition create_products : string :=
"
        CREATE TABLE products (
            id INTEGER PRIMARY KEY AUTOINCREMENT,
            name TEXT NOT NULL,
            price REAL NOT NULL
        );
    ".

Definition create_orders : string :=
"
        CREATE TABLE orders (
            id INTEGER PRIMARY KEY AUTOINCREMENT,
            user_id INTEGER NOT NULL,
            product_id INTEGER NOT NULL,
            quantity INTEGER NOT NULL,
            order_date TEXT NOT NULL,
            FOREIGN KEY(user_id) REFERENCES users(id),
            FOREIGN KEY(product_id) REFERENCES products(id)
        );
    ".

Local Open Scope py_scope.

Definition create_tables : M Proc unit :=
cur_execute "DROP TABLE IF EXISTS orders;" None ;;;
cur_execute "DROP TABLE IF EXISTS products;" None ;;;
cur_execute "DROP TABLE IF EXISTS users;" None ;;;
cur_execute create_users None ;;;
cur_execute create_products None ;;;
cur_execute create_orders None.

(** [for x in xs: body(x)]. *)
Fixpoint for_each {A : Type} (xs : list A) (body : A -> M Proc unit)
: M Proc unit :=
match xs with
| [] => ret tt
| x :: xs' => body x ;;; for_each xs' body
end.

Definition seed_users (n : nat) : M Proc unit :=
let names := ["Alice"; "Bob"; "Charlie"; "Diana"; "Eve"] in
for_each (firstn n names) (fun name =>
  let email := lower_ascii name ++ "@example.com" in
  d <- random_randint 1 365 ;;
  let signup := isoformat_days_ago (fst d) (snd d) in
  cur_execute "INSERT INTO users (name, email, signup_date) VALUES (?, ?, ?);"
    (Some (VList [VStr name; VStr email; VStr signup]))).

Definition seed_products : M Proc unit :=
let products := [ ("UltraWidget", "19.99"); ("MegaGadget", "29.95");
                  ("Thingamajig", "9.5"); ("Doohickey", "14.75");
                  ("Whatsit", "4.2") ] in
for_each products (fun np =>
  cur_execute "INSERT INTO products (name, price) VALUES (?, ?);"
    (Some (VList [VStr (fst np); VFloat (snd np)]))).

Definition seed_orders (n : nat) : M Proc unit :=
for_each (seq 0 n) (fun _ =>
  user_id <- random_randint 1 5 ;;
  product_id <- random_randint 1 5 ;;
  qty <- random_randint 1 10 ;;
  d <- random_randint 1 180 ;;
  let order_date := isoformat_days_ago (fst d) (snd d) in
  cur_execute
    "INSERT INTO orders (user_id, product_id, quantity, order_date) VALUES (?, ?, ?, ?);"
    (Some (VList [VInt (snd user_id); VInt (snd product_id);
                  VInt (snd qty); VStr order_date]))).

(** [main], on the database file.  When a statement or the final commit
  raises the script dies with the connection uncommitted. *)
Definition main : M Db unit :=
fun file =>
  let script :=
    create_tables ;;;
    seed_users 5 ;;;
    seed_products ;;;
    seed_orders 20 in
  match script (mkProc (connect file) 0) with
  | (p, Return _) =>
      match commit (conn p) with
      | (c, Return _) => (close c, Return tt)
      | (c, Raise e) => (close c, Raise e)
      end
  | (p, Raise e) => (close (conn p), Raise e)
  end.
End Script.
End CreateDb.

(** ** An executable [PyText] for ASCII text

    On strings of ASCII characters these are Python's [strip], [upper] and
    [repr]; a byte above 127 (part of a UTF-8 sequence) is kept as it is. *)

Definition DQUOTE : ascii := ascii_of_nat 34.
Definition SQUOTE : ascii := ascii_of_nat 39.
Definition BACKSLASH : ascii := ascii_of_nat 92.

Definition is_space (c : ascii) : bool :=
  let n := nat_of_ascii c in
  (Nat.leb 9 n && Nat.leb n 13) || (Nat.leb 28 n && Nat.leb n 31) || Nat.eqb n 32.

Fixpoint lstrip (s : string) : string :=
  match s with
  | EmptyString => EmptyString
  | String c s' => if is_space c then lstrip s' else s
  end.

Definition reverse (s : string) : string :=
  string_of_list_ascii (rev (list_ascii_of_string s)).

Definition strip_ascii (s : string) : string :=
  reverse (lstrip (reverse (lstrip s))).

Definition ascii_upper (c : ascii) : ascii :=
  let n := nat_of_ascii c in
  if Nat.leb 97 n && Nat.leb n 122 then ascii_of_nat (n - 32) else c.

Definition upper_ascii (s : string) : string :=
  string_of_list_ascii (map ascii_upper (list_ascii_of_string s)).

Definition hex_digit (n : nat) : ascii :=
  if Nat.ltb n 10 then ascii_of_nat (48 + n) else ascii_of_nat (87 + n).

(** [\xNN]. *)
Definition hex_escape (c : ascii) : string :=
  let n := nat_of_ascii c in
  String BACKSLASH
    (String "x" (String (hex_digit (n / 16)) (String (hex_digit (n mod 16)) ""))).

Definition contains_char (c : ascii) (s : string) : bool :=
  existsb (Ascii.eqb c) (list_ascii_of_string s).

(** [repr] uses the single quote, unless the text holds a single quote and
    no double quote. *)
Definition repr_quote (s : string) : ascii :=
  if contains_char SQUOTE s && negb (contains_char DQUOTE s) then DQUOTE
  else SQUOTE.

Definition repr_char (quote : ascii) (printable_above : nat) (c : ascii) : string :=
  let n := nat_of_ascii c in
  if Ascii.eqb c quote || Ascii.eqb c BACKSLASH then String BACKSLASH (String c "")
  else if Nat.eqb n 9 then String BACKSLASH "t"
  else if Nat.eqb n 10 then String BACKSLASH "n"
  else if Nat.eqb n 13 then String BACKSLASH "r"
  else if Nat.ltb n 32 || Nat.eqb n 127 || Nat.ltb printable_above n
       then hex_escape c
  else String c "".

Definition repr_body (quote : ascii) (printable_above : nat) (s : string) : string :=
  String.concat "" (map (repr_char quote printable_above) (list_ascii_of_string s)).

Definition repr_str_ascii (s : string) : string :=
  let q := repr_quote s in
  String q (repr_body q 255 s) ++ String q "".

Definition repr_bytes (s : string) : string :=
  let q := repr_quote s in
  String "b" (String q (repr_body q 126 s)) ++ String q "".

Definition ascii_text : PyText := {|
  str_strip := strip_ascii;
  str_upper := upper_ascii;
  str_repr := repr_str_ascii;
  bytes_repr := repr_bytes
|}.

(** ** An executable [Sqlite3]: the schema catalog

    The fragment of SQLite that [create_db.py] and the [list_tables] tool
    exercise, as SQLite documents it:

    - the database is its list of tables, the rows of [sqlite_master] with
      [type='table']; the rows of the tables are not part of a [Db];
    - [CREATE TABLE t (...)] adds [t], and fails when [t] exists; when a
      column is declared [AUTOINCREMENT] the engine also creates its internal
      table [sqlite_sequence], unless it is already there;
    - [DROP TABLE IF EXISTS t] removes [t] and leaves [sqlite_sequence];
    - schema statements outside a transaction take effect at once;
    - an [INSERT] into a missing table fails with [no such table: t].  Whether
      another [INSERT] succeeds depends on the columns of the table and on
      the rows it holds, so the engine decides only the three parameterised
      statements of the script, in the script's own text and with a parameter
      row of the types the script passes, on a table that this connection has
      made from the script's own definition: the one column they leave out
      is the [AUTOINCREMENT] key, every [NOT NULL] column gets a value, a
      price that is not a number is stored as [NULL] and refused, and the
      [UNIQUE] mail address of a user is checked against the users inserted
      since the table was made.  An integer parameter is taken to fit the 64
      bits of an SQLite [INTEGER].  Such an [INSERT] reports one row and
      opens the implicit transaction of Python's [sqlite3];
    - the listing query returns the table names in byte order;
    - [SELECT ... FROM t] on a missing table fails with [no such table: t];
    - none of these statements leaves rows behind for [commit] to refuse.

    Every other statement is outside the fragment; the model answers it with
    an [OperationalError] and no theorem below runs one. *)

Module Catalog.

Definition is_separator (c : ascii) : bool :=
  is_space c || contains_char c "(),;".

(** The words of a statement. *)
Fixpoint words (cur : string) (s : string) : list string :=
  match s with
  | EmptyString => if String.eqb cur "" then [] else [cur]
  | String c s' =>
      if is_separator c
      then if String.eqb cur "" then words "" s' else cur :: words "" s'
      else words (cur ++ String c "") s'
  end.

Definition tokens (q : string) : list string := words "" q.

Definition same_name (a b : string) : bool :=
  String.eqb (upper_ascii a) (upper_ascii b).

(** The tokens after the keywords [kws], when the statement starts with
    them. *)
Fixpoint after_keywords (kws toks : list string) : option (list string) :=
  match kws, toks with
  | [], _ => Some toks
  | k :: kws', t :: toks' =>
      if same_name k t then after_keywords kws' toks' else None
  | _ :: _, [] => None
  end.

Fixpoint token_after (kw : string) (toks : list string) : option string :=
  match toks with
  | [] => None
  | t :: toks' =>
      if same_name kw t
      then match toks' with
           | x :: _ => Some x
           | [] => None
           end
      else token_after kw toks'
  end.

Definition has_table (t : string) (db : list string) : bool :=
  existsb (same_name t) db.

Definition drop_table (t : string) (db : list string) : list string :=
  filter (fun x => negb (same_name t x)) db.

Fixpoint insert_sorted (x : string) (l : list string) : list string :=
  match l with
  | [] => [x]
  | y :: l' => if String.leb x y then x :: l else y :: insert_sorted x l'
  end.

Definition sort_names (l : list string) : list string :=
  fold_right insert_sorted [] l.

(** An open connection: the catalog of the file, the catalog as the
    connection sees it, whether a transaction is open, the tables the
    connection has made from the script's definitions, and the mail
    addresses of the users it has inserted since it made [users]. *)
Record Conn : Type := mkConn {
  disk : list string;
  work : list string;
  in_transaction : bool;
  made : list string;
  emails : list string
}.

Definition OperationalError (msg : string) : exn := mkExn "OperationalError" msg.

Definition IntegrityError (msg : string) : exn := mkExn "IntegrityError" msg.

Definition outside (c : Conn) : Conn * result Cursor :=
  (c, Raise (OperationalError "outside the catalog fragment")).

(** A schema statement: it changes the working catalog, and the file as
    well when no transaction is open. *)
Definition schema_change (c : Conn) (db made' emails' : list string)
  : Conn * result Cursor :=
  (mkConn (if in_transaction c then disk c else db) db (in_transaction c)
     made' emails',
   Return (mkCursor (-1) (Return []))).

(** [DROP TABLE IF EXISTS t]: the table goes, with what the connection
    knew about it. *)
Definition dropped (c : Conn) (t : string) : Conn * result Cursor :=
  schema_change c (drop_table t (work c)) (drop_table t (made c))
    (if same_name t "users" then [] else emails c).

Definition listing : string :=
  "SELECT name FROM sqlite_master WHERE type='table' ORDER BY name;".

Definition insert_users : string :=
  "INSERT INTO users (name, email, signup_date) VALUES (?, ?, ?);".

Definition insert_products : string :=
  "INSERT INTO products (name, price) VALUES (?, ?);".

Definition insert_orders : string :=
  "INSERT INTO orders (user_id, product_id, quantity, order_date) VALUES (?, ?, ?, ?);".

Fixpoint same_tokens (a b : list string) : bool :=
  match a, b with
  | [], [] => true
  | x :: a', y :: b' => String.eqb x y && same_tokens a' b'
  | _, _ => false
  end.

(** The statement is one of the script's definitions, as the script
    writes it. *)
Definition script_definition (q : string) : bool :=
  String.eqb q CreateDb.create_users
  || String.eqb q CreateDb.create_products
  || String.eqb q CreateDb.create_orders.

(** One row goes in: the transaction is open from now on. *)
Definition inserted (c : Conn) (emails' : list string) : Conn * result Cursor :=
  (mkConn (disk c) (work c) true (made c) emails',
   Return (mkCursor 1 (Return []))).

(** The row is refused: the transaction was opened before the statement
    ran. *)
Definition refused (c : Conn) (msg : string) : Conn * result Cursor :=
  (mkConn (disk c) (work c) true (made c) (emails c),
   Raise (IntegrityError msg)).

(** An [INSERT] into the existing table [t]. *)
Definition insert_row (c : Conn) (q : string) (params : option pyval)
  : Conn * result Cursor :=
  if String.eqb q insert_users then
    match params with
    | Some (VList [VStr _; VStr email; VStr _]) =>
        if has_table "users" (made c)
        then if existsb (String.eqb email) (emails c)
             then refused c "UNIQUE constraint failed: users.email"
             else inserted c (emails c ++ [email])
        else outside c
    | _ => outside c
    end
  else if String.eqb q insert_products then
    match params with
    | Some (VList [VStr _; VFloat price]) =>
        if has_table "products" (made c)
        then if String.eqb price "nan"
             then refused c "NOT NULL constraint failed: products.price"
             else inserted c (emails c)
        else outside c
    | _ => outside c
    end
  else if String.eqb q insert_orders then
    match params with
    | Some (VList [VInt _; VInt _; VInt _; VStr _]) =>
        if has_table "orders" (made c)
        then inserted c (emails c)
        else outside c
    | _ => outside c
    end
  else outside c.

Definition cat_execute (c : Conn) (q : string) (params : option pyval)
  : Conn * result Cursor :=
  let toks := tokens q in
  if same_tokens toks (tokens listing) then
    (c, Return (mkCursor (-1)
                  (Return (map (fun n => [("name", VStr n)])
                               (sort_names (work c))))))
  else
  match after_keywords ["DROP"; "TABLE"; "IF"; "EXISTS"] toks with
  | Some [t] => dropped c t
  | Some _ => outside c
  | None =>
  match after_keywords ["CREATE"; "TABLE"] toks with
  | Some (t :: body) =>
      if has_table t (work c)
      then (c, Raise (OperationalError ("table " ++ t ++ " already exists")))
      else
        let db := (work c ++ [t])%list in
        let made' := if script_definition q
                     then (made c ++ [t])%list else made c in
        if existsb (same_name "AUTOINCREMENT") body
           && negb (has_table "sqlite_sequence" db)
        then schema_change c (db ++ ["sqlite_sequence"])%list made' (emails c)
        else schema_change c db made' (emails c)
  | Some [] => (c, Raise (OperationalError "incomplete input"))
  | None =>
  match after_keywords ["INSERT"; "INTO"] toks with
  | Some (t :: _) =>
      if has_table t (work c)
      then insert_row c q params
      else (c, Raise (OperationalError ("no such table: " ++ t)))
  | Some [] => (c, Raise (OperationalError "incomplete input"))
  | None =>
  match after_keywords ["SELECT"] toks, token_after "FROM" toks with
  | Some _, Some t =>
      if has_table t (work c) || same_name t "sqlite_master"
      then outside c
      else (c, Raise (OperationalError ("no such table: " ++ t)))
  | _, _ => outside c
  end end end end.

Definition engine : Sqlite3 := {|
  Db := list string;
  Connection := Conn;
  connect := fun db => mkConn db db false [] [];
  execute := cat_execute;
  commit := fun c =>
              (mkConn (work c) (work c) false (made c) (emails c), Return tt);
  close := disk
|}.

End Catalog.

(** ** [json.dumps]

    With the default options: [ensure_ascii], separators [", "] and [": "],
    [allow_nan].  A [str] is held as its UTF-8 bytes, so the escapes are
    computed on the decoded code points.  The encoder refuses [bytes], and
    an [int] of more than [sys.get_int_max_str_digits()] digits, 4300 unless
    the interpreter is told otherwise.  The depth at which it gives up on a
    nested value depends on the stack the interpreter has left and is not
    part of the model. *)

Definition utf8_width (b : ascii) : nat :=
  let n := nat_of_ascii b in
  if Nat.ltb n 192 then 1 else if Nat.ltb n 224 then 2
  else if Nat.ltb n 240 then 3 else 4.

(** The characters of a [str], each as its UTF-8 bytes. *)
Fixpoint utf8_chars (l : list ascii) : list (list ascii) :=
  match l with
  | [] => []
  | b :: r =>
      match utf8_width b, r with
      | 2, b1 :: r' => [b; b1] :: utf8_chars r'
      | 3, b1 :: b2 :: r' => [b; b1; b2] :: utf8_chars r'
      | 4, b1 :: b2 :: b3 :: r' => [b; b1; b2; b3] :: utf8_chars r'
      | _, _ => [b] :: utf8_chars r
      end
  end.

Definition code_point (ch : list ascii) : N :=
  (match map N_of_ascii ch with
   | [b; b1] => (b mod 32) * 64 + b1 mod 64
   | [b; b1; b2] => ((b mod 16) * 64 + b1 mod 64) * 64 + b2 mod 64
   | [b; b1; b2; b3] =>
       (((b mod 8) * 64 + b1 mod 64) * 64 + b2 mod 64) * 64 + b3 mod 64
   | b :: _ => b
   | [] => 0
   end)%N.

Definition hex_of (n : N) : ascii := hex_digit (N.to_nat (n mod 16)%N).

(** [\uXXXX]. *)
Definition u_escape (n : N) : string :=
  String BACKSLASH
    (String "u"
       (String (hex_of (n / 4096))
          (String (hex_of (n / 256))
             (String (hex_of (n / 16)) (String (hex_of n) ""))))).

Definition json_escape_char (ch : list ascii) : string :=
  let n := code_point ch in
  if N.eqb n 34 then String BACKSLASH (String DQUOTE "")
  else if N.eqb n 92 then String BACKSLASH (String BACKSLASH "")
  else if N.eqb n 10 then String BACKSLASH "n"
  else if N.eqb n 13 then String BACKSLASH "r"
  else if N.eqb n 9 then String BACKSLASH "t"
  else if N.eqb n 12 then String BACKSLASH "f"
  else if N.eqb n 8 then String BACKSLASH "b"
  else if N.leb 32 n && N.leb n 126 then string_of_list_ascii ch
  else if N.ltb n 65536 then u_escape n
  else
    let v := (n - 65536)%N in
    u_escape (55296 + v / 1024) ++ u_escape (56320 + v mod 1024).

Definition json_string (s : string) : string :=
  String DQUOTE
    (String.concat "" (map json_escape_char (utf8_chars (list_ascii_of_string s))))
  ++ String DQUOTE "".

Definition json_float (r : string) : string :=
  if String.eqb r "nan" then "NaN"
  else if String.eqb r "inf" then "Infinity"
  else if String.eqb r "-inf" then "-Infinity"
  else r.

Definition int_max_str_digits : nat := 4300.

(** The number of decimal digits of an [int]. *)
Definition int_digits (z : Z) : nat := String.length (str_of_int (Z.abs z)).

Definition json_int (z : Z) : result string :=
  if Nat.ltb int_max_str_digits (int_digits z)
  then Raise (ValueError
                "Exceeds the limit (4300 digits) for integer string conversion; use sys.set_int_max_str_digits() to increase the limit")
  else Return (str_of_int z).

Fixpoint json_dumps (v : pyval) : result string :=
  match v with
  | VNone => Return "null"
  | VBool true => Return "true"
  | VBool false => Return "false"
  | VInt z => json_int z
  | VFloat r => Return (json_float r)
  | VStr s => Return (json_string s)
  | VBytes _ => Raise (TypeError "Object of type bytes is not JSON serializable")
  | VList l =>
      let fix items (l : list pyval) : result (list string) :=
        match l with
        | [] => Return []
        | x :: l' =>
            match json_dumps x with
            | Raise e => Raise e
            | Return s =>
                match items l' with
                | Raise e => Raise e
                | Return ss => Return (s :: ss)
                end
            end
        end in
      match items l with
      | Raise e => Raise e
      | Return ss => Return ("[" ++ join ", " ss ++ "]")
      end
  | VDict d =>
      let fix members (d : list (string * pyval)) : result (list string) :=
        match d with
        | [] => Return []
        | (k, x) :: d' =>
            match json_dumps x with
            | Raise e => Raise e
            | Return s =>
                match members d' with
                | Raise e => Raise e
                | Return ss => Return ((json_string k ++ ": " ++ s) :: ss)
                end
            end
        end in
      match members d with
      | Raise e => Raise e
      | Return ss => Return ("{" ++ join ", " ss ++ "}")
      end
  end.

(** ** [Github-Users-MCP/server.py] *)

Record Request : Type := mkRequest {
  url : string;
  params : pydict;
  headers : list (string * string);
  timeout : string
}.

Record Response : Type := mkResponse {
  status_code : Z;
  resp_text : string;
  resp_json : result pyval
}.

(** The network and the process environment: what [httpx] answers to a GET
    (or the exception it raises), and [os.getenv]. *)
Class Http : Type := {
  http_get : Request -> result Response;
  getenv : string -> option string
}.

Module GithubServer.
Section Server.
Context {txt : PyText} {net : Http}.

(** [v.get(k, default)]. *)
Definition py_get (v : pyval) (k : string) (default : pyval) : result pyval :=
match v with
| VDict d => Return (match dict_get d k with Some x => x | None => default end)
| _ => Raise (AttributeError
                ("'" ++ type_name v ++ "' object has no attribute 'get'"))
end.

(** [v[k]] for a string [k]. *)
Definition py_getitem (v : pyval) (k : string) : result pyval :=
match v with
| VDict d => subscript (Some d) k
| VStr _ => Raise (TypeError "string indices must be integers, not 'str'")
| VBytes _ => Raise (TypeError "byte indices must be integers or slices, not str")
| VList _ => Raise (TypeError "list indices must be integers or slices, not str")
| _ => Raise (TypeError ("'" ++ type_name v ++ "' object is not subscriptable"))
end.

(** The values [for u in v] runs through. *)
Definition py_iter (v : pyval) : result (list pyval) :=
match v with
| VList l => Return l
| VDict d => Return (map (fun kv => VStr (fst kv)) d)
| VStr s =>
    Return (map (fun ch => VStr (string_of_list_ascii ch))
                (utf8_chars (list_ascii_of_string s)))
| VBytes s =>
    Return (map (fun c => VInt (Z.of_nat (nat_of_ascii c)))
                (list_ascii_of_string s))
| _ => Raise (TypeError ("'" ++ type_name v ++ "' object is not iterable"))
end.

(** [[f(u) for u in items]]. *)
Fixpoint comprehension (f : pyval -> result pyval) (items : list pyval)
: result (list pyval) :=
match items with
| [] => Return []
| u :: items' =>
    match f u with
    | Raise e => Raise e
    | Return x =>
        match comprehension f items' with
        | Raise e => Raise e
        | Return xs => Return (x :: xs)
        end
    end
end.

(** [if s:] for a [str | None]. *)
Definition given (s : option string) : bool :=
match s with
| Some x => negb (String.eqb x "")
| None => false
end.

Definition text_of (s : option string) : string :=
match s with Some x => x | None => "None" end.

(** [await client.get(...)]: the request goes out and is answered. *)
Definition client_get (r : Request) : M (list Request) Response :=
fun sent => ((sent ++ [r])%list, http_get r).

Local Open Scope py_scope.

(** [github_search]; the state is the list of HTTP requests sent. *)
Definition github_search (name location : option string) (per_page : Z)
: M (list Request) string :=
let q_parts :=
  app (if given name then [text_of name ++ " in:login"] else [])
      (if given location then ["location:" ++ text_of location] else []) in
match q_parts with
| [] =>
    lift (json_dumps
            (VDict [("error",
                     VStr "Provide at least one of 'name' or 'location'.")]))
| _ =>
    let query := join "+" q_parts in
    let token := getenv "GITHUB_TOKEN" in
    let headers :=
      ("Accept", "application/vnd.github.v3+json")
      :: (if given token then [("Authorization", "token " ++ text_of token)]
          else []) in
    resp <- client_get
              (mkRequest "https://api.github.com/search/users"
                 [("q", VStr query); ("per_page", VInt per_page)]
                 headers "10.0") ;;
    if negb (Z.eqb (status_code resp) 200) then
      lift (json_dumps
              (VDict [("error",
                       VStr ("GitHub API returned "
                             ++ str_of_int (status_code resp) ++ ": "
                             ++ resp_text resp))]))
    else
      body <- lift (resp_json resp) ;;
      items <- lift (py_get body "items" (VList [])) ;;
      us <- lift (py_iter items) ;;
      results <- lift (comprehension
                         (fun u =>
                            match py_getitem u "login" with
                            | Raise e => Raise e
                            | Return login =>
                                match py_getitem u "html_url" with
                                | Raise e => Raise e
                                | Return html_url =>
                                    match py_get u "score" (VInt 0) with
                                    | Raise e => Raise e
                                    | Return score =>
                                        Return (VDict [("login", login);
                                                       ("url", html_url);
                                                       ("score", score)])
                                    end
                                end
                            end) us) ;;
      lift (json_dumps (VList results))
end.
End Server.
End GithubServer.

(** ** [mcp-agent-multi-tools/server.py] *)

Module MultiTools.

(** [add]: both parameters are annotated [float], so the sum is the
    binary64 sum. *)
Definition add (a b : float) : float := (a + b)%float.

End MultiTools.

(** ** Vocabulary of the properties *)

(** The text after the last line feed. *)
Fixpoint last_line_from (acc s : string) : string :=
  match s with
  | EmptyString => acc
  | String c s' =>
      if Ascii.eqb c (ascii_of_nat 10) then last_line_from "" s'
      else last_line_from (acc ++ String c "") s'
  end.

Definition last_line (s : string) : string := last_line_from "" s.

Section Vocabulary.
Context {txt : PyText} {sql : Sqlite3}.
Import SqliteServer.

(** The names the discovery call lists. *)
Definition registry (st : ServerState) : list string :=
  match _list_tools st with
  | (_, Return tools) => map name tools
  | (_, Raise _) => []
  end.

(** The call [append_insight] with arguments [d] takes [st] to [st'] and
    returns its success text. *)
Definition appended (d : pydict) (st st' : ServerState) : Prop :=
  _call_tool "append_insight" (Some d) st
  = (st', Return [mkText "text" "Insight appended"]).

(** What a read of [memo://insights] returns in [st]. *)
Definition memo_of (st : ServerState) : result string :=
  snd (_read_resource memo_uri st).

(** The memo as the interface describes it: the heading and one bullet per
    insight, and the summary that may follow. *)
Definition bullets (ins : list pyval) : string :=
  "📊 Business Insights Memo 📊" ++ LF ++ LF ++ "Key Insights:" ++ LF
  ++ join LF (map (fun i => "- " ++ py_str i) ins).

Definition summary (n : nat) : string :=
  LF ++ LF ++ "Summary:" ++ LF ++ str_of_int (Z.of_nat n)
  ++ " insights suggest strategic opportunities.".

(** The rows a cursor holds, as [_execute_query] returns them. *)
Definition row_data (rows : list Row) : pyval :=
  VList (map (fun r => VDict (dict_of_row r)) rows).

(** The one-row answer that reports a count. *)
Definition affected_rows (cur : Cursor) : pyval :=
  VList [VDict [("affected_rows", VInt (rowcount cur))]].
End Vocabulary.

(** The closed scenarios: a source of draws, a session that has sent nothing
    and will not fail, the server on the empty database, and the server on
    the database that [create_db.py] made from the empty one. *)
Definition fixed_draws : Entropy := {|
  randint := fun _ a _ => a;
  isoformat_days_ago := fun _ _ => "2025-01-01T00:00:00"
|}.

Definition quiet_session : Session := mkSession [] [].

Definition empty_server : @SqliteServer.ServerState Catalog.engine :=
  @SqliteServer.SqliteDatabase Catalog.engine [] quiet_session.

Definition seeded_file (os : Entropy) : list string :=
  fst (@CreateDb.main Catalog.engine os []).

Definition seeded_server (os : Entropy) (s : Session)
  : @SqliteServer.ServerState Catalog.engine :=
  @SqliteServer.SqliteDatabase Catalog.engine (seeded_file os) s.

(** The dispatcher on the executable text and engine. *)
Definition call_tool_catalog :=
  @SqliteServer._call_tool ascii_text Catalog.engine.

(** A network that is down and an environment without a token. *)
Definition offline : Http := {|
  http_get := fun _ => Raise (mkExn "ConnectError" "All connection attempts failed");
  getenv := fun _ => None
|}.

(** The JSON object whose one member [error] holds the message of the guard
    of [github_search]. *)
Definition guard_payload : string :=
  "{" ++ String DQUOTE "error" ++ String DQUOTE ": "
  ++ String DQUOTE "Provide at least one of 'name' or 'location'."
  ++ String DQUOTE "}".

(** ** [SQLite Explorer/server.py]: the prompt *)

Module SqlitePrompts.
Section Prompts.
Context {txt : PyText}.

Record PromptArgument : Type := mkPromptArgument {
  argument_name : string;
  argument_description : string;
  required : bool
}.

Record Prompt : Type := mkPrompt {
  prompt_name : string;
  prompt_description : string;
  arguments : list PromptArgument
}.

Record PromptMessage : Type := mkPromptMessage {
  role : string;
  content : SqliteServer.TextContent
}.

Record GetPromptResult : Type := mkGetPromptResult {
  description : string;
  messages : list PromptMessage
}.

(** [PROMPT_TEMPLATE.format(topic=t)]: the template has the one field
    [{topic}]; this is the text before it, [str(t)], and the text after. *)
Definition PROMPT_TEMPLATE_format (topic : pyval) : string :=
  LF ++ "You are demonstrating an SQLite MCP Server demo for topic: "
  ++ py_str topic ++ "." ++ LF
  ++ "Follow the “mcp-demo” script: first explain the demo, then set up tables, pause for user choices, run queries, append insights, build a dashboard, and finish with the memo."
  ++ LF.

Definition _list_prompts : list Prompt :=
  [ mkPrompt "mcp-demo" "Walk through an interactive SQLite demo"
      [mkPromptArgument "topic" "Demo topic" true] ].

Definition _get_prompt (name : string) (args : option pydict)
  : result GetPromptResult :=
  match (if String.eqb name "mcp-demo"
         then match args with
              | None | Some [] => None
              | Some d => dict_get d "topic"
              end
         else None) with
  | None => Raise (ValueError "Prompt 'mcp-demo' requires a 'topic' argument")
  | Some topic =>
      let prompt_text := str_strip (PROMPT_TEMPLATE_format topic) in
      Return (mkGetPromptResult
                ("Demo for topic: " ++ py_str topic)
                [mkPromptMessage "user" (SqliteServer.mkText "text" prompt_text)])
  end.
End Prompts.
End SqlitePrompts.

(** ** [mcp-agent-multi-tools/server.py]: the tools that go to the network *)

(** [f"{v:.2f}"], and the items of an RSS answer:
    [ET.fromstring(resp.content).findall("./channel/item")], each item as
    its [findtext("title")] and [findtext("link")]. *)
Class PyFormat : Type := {
  format_2f : pyval -> result string
}.

Class ElementTree : Type := {
  channel_items : Response -> result (list (option string * option string))
}.

Module MultiToolsServer.
Section Server.
Context {txt : PyText} {net : Http} {fmt : PyFormat} {xml : ElementTree}.
Import GithubServer.

(** [v[0]]. *)
Definition py_first (v : pyval) : result pyval :=
  match v with
  | VList (x :: _) => Return x
  | VList [] => Raise (mkExn "IndexError" "list index out of range")
  | VDict _ => Raise (mkExn "KeyError" "0")
  | VStr s =>
      match utf8_chars (list_ascii_of_string s) with
      | ch :: _ => Return (VStr (string_of_list_ascii ch))
      | [] => Raise (mkExn "IndexError" "string index out of range")
      end
  | VBytes s =>
      match s with
      | String c _ => Return (VInt (Z.of_nat (nat_of_ascii c)))
      | EmptyString => Raise (mkExn "IndexError" "index out of range")
      end
  | _ => Raise (TypeError ("'" ++ type_name v ++ "' object is not subscriptable"))
  end.

Local Open Scope py_scope.

(** [weather]; the state is the list of HTTP requests sent. *)
Definition weather (location : string) : M (list Request) string :=
  geo <- client_get
           (mkRequest "https://geocoding-api.open-meteo.com/v1/search"
              [("name", VStr location); ("count", VInt 1)] [] "10.0") ;;
  found <- lift (match resp_json geo with
                 | Raise e => Raise e
                 | Return body => py_get body "results" VNone
                 end) ;;
  let results := if truthy found then found else VList [] in
  if negb (truthy results) then ret ("❌ Location not found: " ++ location)
  else
    place <- lift (py_first results) ;;
    lat <- lift (py_getitem place "latitude") ;;
    place' <- lift (py_first results) ;;
    lon <- lift (py_getitem place' "longitude") ;;
    resp <- client_get
              (mkRequest "https://api.open-meteo.com/v1/forecast"
                 [("latitude", lat); ("longitude", lon);
                  ("current_weather", VBool true)] [] "10.0") ;;
    cw <- lift (match resp_json resp with
                | Raise e => Raise e
                | Return body => py_get body "current_weather" (VDict [])
                end) ;;
    lat2 <- lift (format_2f lat) ;;
    lon2 <- lift (format_2f lon) ;;
    temperature <- lift (py_get cw "temperature" VNone) ;;
    windspeed <- lift (py_get cw "windspeed" VNone) ;;
    weathercode <- lift (py_get cw "weathercode" VNone) ;;
    ret ("🌤 Current weather in " ++ location ++ " (" ++ lat2 ++ ", " ++ lon2
         ++ "): " ++ py_str temperature ++ "°C, wind " ++ py_str windspeed
         ++ " m/s (code " ++ py_str weathercode ++ ")").

(** [f"{text} ({url})" if url else text]. *)
Definition with_url (text url : pyval) : pyval :=
  if truthy url then VStr (py_str text ++ " (" ++ py_str url ++ ")") else text.

(** [if text := v.get("Text"): url = v.get(url_key, ""); return ...]:
    the value returned, if the entry has a text. *)
Definition entry_answer (v : pyval) : result (option pyval) :=
  match py_get v "Text" VNone with
  | Raise e => Raise e
  | Return text =>
      if truthy text
      then match py_get v "FirstURL" (VStr "") with
           | Raise e => Raise e
           | Return url => Return (Some (with_url text url))
           end
      else Return None
  end.

(** [for sub in ...: if text := sub.get("Text"): return ...]. *)
Fixpoint scan_subtopics (subs : list pyval) : result (option pyval) :=
  match subs with
  | [] => Return None
  | sub :: rest =>
      match entry_answer sub with
      | Raise e => Raise e
      | Return (Some v) => Return (Some v)
      | Return None => scan_subtopics rest
      end
  end.

(** [for topic in ...]: the topic's own text first, then its [Topics]. *)
Fixpoint scan_topics (topics : list pyval) : result (option pyval) :=
  match topics with
  | [] => Return None
  | topic :: rest =>
      match entry_answer topic with
      | Raise e => Raise e
      | Return (Some v) => Return (Some v)
      | Return None =>
          match py_get topic "Topics" (VList []) with
          | Raise e => Raise e
          | Return subs =>
              match py_iter subs with
              | Raise e => Raise e
              | Return subs' =>
                  match scan_subtopics subs' with
                  | Raise e => Raise e
                  | Return (Some v) => Return (Some v)
                  | Return None => scan_topics rest
                  end
              end
          end
      end
  end.

(** What [duckduckgo_search] makes of the decoded answer [data]. *)
Definition instant_answer (data : pyval) : result pyval :=
  match py_get data "AbstractText" VNone with
  | Raise e => Raise e
  | Return text =>
      if truthy text
      then match py_get data "AbstractURL" (VStr "") with
           | Raise e => Raise e
           | Return url => Return (with_url text url)
           end
      else
        match py_get data "RelatedTopics" (VList []) with
        | Raise e => Raise e
        | Return related =>
            match py_iter related with
            | Raise e => Raise e
            | Return topics =>
                match scan_topics topics with
                | Raise e => Raise e
                | Return (Some v) => Return v
                | Return None => Return (VStr "No results found.")
                end
            end
        end
  end.

(** [duckduckgo_search]. *)
Definition duckduckgo_search (query : string) : M (list Request) pyval :=
  resp <- client_get
            (mkRequest "https://api.duckduckgo.com/"
               [("q", VStr query); ("format", VStr "json");
                ("no_html", VInt 1); ("skip_disambig", VInt 1)] [] "10.0") ;;
  data <- lift (resp_json resp) ;;
  lift (instant_answer data).

(** [items[:count]]. *)
Definition slice_to {A : Type} (items : list A) (count : Z) : list A :=
  if Z.leb 0 count then firstn (Z.to_nat count) items
  else firstn (List.length items - Z.to_nat (- count)) items.

(** The list [lines] after the loop over [enumerate(items, start=i)]. *)
Fixpoint headlines (i : Z) (items : list (option string * option string))
  : list string :=
  match items with
  | [] => []
  | (title, link) :: rest =>
      (str_of_int i ++ ". " ++ text_of title ++ " — " ++ text_of link)
      :: headlines (i + 1) rest
  end.

(** [latest_news]. *)
Definition latest_news (count : Z) : M (list Request) string :=
  resp <- client_get (mkRequest "http://rss.cnn.com/rss/edition.rss" [] [] "10.0") ;;
  items <- lift (channel_items resp) ;;
  ret (join LF (headlines 1 (slice_to items count))).
End Server.
End MultiToolsServer.

(** ** The chat clients: [SQLite Explorer/agent.py] and
    [mcp-agent-multi-tools/agent.py]

    The two clients have the same loop.  The console is the list of lines
    still to be read, and [input] fails with [EOFError] when it is
    exhausted.  The remote model is a collaborator: [agent_run k text] is
    the output of the [k]-th call of [agent.run], or the exception it
    raises.  So is the terminal: [input_fault k] is the exception the [k]-th
    call of [input] raises in place of reading a line, a line that is not
    valid text for one, and [print_fault n line] the exception the [n]-th
    call of [print] raises in place of writing [line]; [None] when the call
    goes through.  What the client does is the list of its events: a call of
    [input] with its prompt, a line printed, a text sent to the agent. *)

Class PyCase : Type := {
  str_lower : string -> string
}.

Class Agent : Type := {
  agent_run : nat -> string -> result string
}.

Class Terminal : Type := {
  input_fault : nat -> option exn;
  print_fault : nat -> string -> option exn
}.

Inductive Event : Type :=
| Prompted (text : string)
| Printed (line : string)
| Asked (prompt : string).

Module ChatClient.
Section Loop.
Context {txt : PyText} {case : PyCase} {agent : Agent} {tty : Terminal}.

(** [not user_input or user_input.lower() in ("/exit", "exit")]. *)
Definition quits (user_input : string) : bool :=
  String.eqb user_input ""
  || String.eqb (str_lower user_input) "/exit"
  || String.eqb (str_lower user_input) "exit".

(** [except (EOFError, KeyboardInterrupt)]. *)
Definition hangs_up (e : exn) : bool :=
  String.eqb (exn_class e) "EOFError"
  || String.eqb (exn_class e) "KeyboardInterrupt".

(** [print(line); return], as the [n]-th call of [print]. *)
Definition goodbye (n : nat) (line : string) : list Event * result unit :=
  match print_fault n line with
  | Some e => ([Prompted "You: "], Raise e)
  | None => ([Prompted "You: "; Printed line], Return tt)
  end.

(** The [while True] loop of [main] when [k] turns have been completed:
    [input] has been called [k] times, the agent [k] times, and [print]
    [k] times after the banner.  The events, and how the loop ends. *)
Fixpoint chat (k : nat) (console : list string) : list Event * result unit :=
  match input_fault k with
  | Some e =>
      if hangs_up e then goodbye (S k) (LF ++ "Goodbye!")
      else ([Prompted "You: "], Raise e)
  | None =>
      match console with
      | [] => goodbye (S k) (LF ++ "Goodbye!")
      | line :: console' =>
          let user_input := str_strip line in
          if quits user_input
          then goodbye (S k) "Goodbye!"
          else
            match agent_run k user_input with
            | Raise e => ([Prompted "You: "; Asked user_input], Raise e)
            | Return output =>
                match print_fault (S k) ("Bot: " ++ output) with
                | Some e => ([Prompted "You: "; Asked user_input], Raise e)
                | None =>
                    let '(events, r) := chat (S k) console' in
                    (Prompted "You: " :: Asked user_input
                     :: Printed ("Bot: " ++ output) :: events, r)
                end
            end
      end
  end.

Definition banner : string :=
  "✅ Connected! Start chatting. (Type /exit or blank to quit.)" ++ LF.

(** [main] once the servers are connected. *)
Definition main (console : list string) : list Event * result unit :=
  match print_fault 0 banner with
  | Some e => ([], Raise e)
  | None =>
      let '(events, r) := chat 0 console in
      (Printed banner :: events, r)
  end.
End Loop.
End ChatClient.

(** ** An executable [Sqlite3]: the journal

    An engine that accepts every statement and only records it: a statement
    waits in the connection until [commit] moves it to the file, and is lost
    when the connection is closed first.  It shows which statements reach
    the engine and which of them are committed.  Its statements hand out no
    rows, and its [commit] never refuses. *)

Module Journal.

Definition Statement : Type := (string * option pyval)%type.

Record Conn : Type := mkConn {
  committed : list Statement;
  pending : list Statement
}.

Definition engine : Sqlite3 := {|
  Db := list Statement;
  Connection := Conn;
  connect := fun file => mkConn file [];
  execute := fun c q params =>
               (mkConn (committed c) (pending c ++ [(q, params)])%list,
                Return (mkCursor 1 (Return [])));
  commit := fun c => (mkConn (committed c ++ pending c)%list [], Return tt);
  close := committed
|}.

End Journal.

(** ** An executable [Sqlite3]: one table of notes

    A database that holds the one table
    [notes (id INTEGER PRIMARY KEY, body TEXT)]; a [Db] is the list of the
    bodies of its rows, in the order of their [id].  The engine knows the
    statement [INSERT INTO notes (body) VALUES (?)], with the body as its one
    parameter or written in quotes in place of the question mark, and the
    same statement followed by [RETURNING id]:

    - both add the row inside the implicit transaction of Python's
      [sqlite3], so the file changes at [commit];
    - the second hands the new [id] back as a result row.  The statement is
      then still in progress when [execute] returns, and stays so until its
      rows are fetched or its cursor is closed; [commit] is refused
      meanwhile, with
      [OperationalError: cannot commit transaction - SQL statements in progress],
      and the transaction stays open.

    Every other statement is outside the fragment; the model answers it with
    an [OperationalError]. *)

Module Notes.

Record Conn : Type := mkConn {
  disk : list string;
  work : list string;
  in_progress : bool
}.

Definition OperationalError (msg : string) : exn := mkExn "OperationalError" msg.

(** [s] without its prefix [p]. *)
Fixpoint without_prefix (p s : string) : option string :=
  match p, s with
  | EmptyString, _ => Some s
  | String a p', String b s' =>
      if Ascii.eqb a b then without_prefix p' s' else None
  | String _ _, EmptyString => None
  end.

(** The text up to the next single quote, and what follows that quote. *)
Fixpoint until_quote (s : string) : option (string * string) :=
  match s with
  | EmptyString => None
  | String c s' =>
      if Ascii.eqb c SQUOTE then Some (EmptyString, s')
      else if Ascii.eqb c Ascii.zero then None
      else
        match until_quote s' with
        | Some (body, rest) => Some (String c body, rest)
        | None => None
        end
  end.

(** The body a statement inserts and the text behind the value: the
    parameter for a question mark, or the text between quotes. *)
Definition inserted_value (rest : string) (params : option pyval)
  : option (string * string) :=
  match without_prefix "?" rest, params with
  | Some tail, Some (VList [VStr body]) => Some (body, tail)
  | Some _, _ => None
  | None, None =>
      match without_prefix (String SQUOTE EmptyString) rest with
      | Some after => until_quote after
      | None => None
      end
  | None, Some _ => None
  end.

Definition notes_execute (c : Conn) (q : string) (params : option pyval)
  : Conn * result Cursor :=
  let outside := (c, Raise (OperationalError "outside the notes fragment")) in
  match without_prefix "INSERT INTO notes (body) VALUES (" q with
  | Some rest =>
      match inserted_value rest params with
      | Some (body, tail) =>
          if String.eqb tail ")"
          then (mkConn (disk c) (work c ++ [body])%list false,
                Return (mkCursor 1 (Return [])))
          else if String.eqb tail ") RETURNING id"
          then (mkConn (disk c) (work c ++ [body])%list true,
                Return (mkCursor 0
                          (Return [[("id",
                                     VInt (Z.of_nat (S (List.length (work c)))))]])))
          else outside
      | None => outside
      end
  | None => outside
  end.

Definition notes_commit (c : Conn) : Conn * result unit :=
  if in_progress c
  then (c, Raise (OperationalError
                    "cannot commit transaction - SQL statements in progress"))
  else (mkConn (work c) (work c) false, Return tt).

Definition engine : Sqlite3 := {|
  Db := list string;
  Connection := Conn;
  connect := fun file => mkConn file file false;
  execute := notes_execute;
  commit := notes_commit;
  close := disk
|}.

End Notes.

(** ** More vocabulary *)

(** A network that answers every request with the same response. *)
Definition answering (resp : Response) (token : option string) : Http := {|
  http_get := fun _ => Return resp;
  getenv := fun _ => token
|}.

(** A statement of the script that makes a table. *)
Definition makes (q t : string) : Prop :=
  Catalog.same_tokens (Catalog.tokens q) (Catalog.tokens Catalog.listing) = false
  /\ Catalog.after_keywords ["DROP"; "TABLE"; "IF"; "EXISTS"] (Catalog.tokens q) = None
  /\ Catalog.after_keywords ["CREATE"; "TABLE"] (Catalog.tokens q) = Some (t :: skipn 3 (Catalog.tokens q))
  /\ existsb (Catalog.same_name "AUTOINCREMENT") (skipn 3 (Catalog.tokens q)) = true
  /\ Catalog.script_definition q = true.

(** A statement of the script that inserts a row. *)
Definition inserts (q t : string) : Prop :=
  Catalog.same_tokens (Catalog.tokens q) (Catalog.tokens Catalog.listing) = false
  /\ Catalog.after_keywords ["DROP"; "TABLE"; "IF"; "EXISTS"] (Catalog.tokens q) = None
  /\ Catalog.after_keywords ["CREATE"; "TABLE"] (Catalog.tokens q) = None
  /\ Catalog.after_keywords ["INSERT"; "INTO"] (Catalog.tokens q) = Some (t :: skipn 3 (Catalog.tokens q)).

(** The randomness keeps its promise: a draw lies in the range asked for. *)
Definition in_range (os : Entropy) : Prop :=
  forall (k : nat) (a b : Z), (a <= b)%Z -> (a <= randint k a b <= b)%Z.

(** The statements [create_db.py] commits, on the journal engine that
    accepts them all. *)
Definition seeding_journal (os : Entropy) : list Journal.Statement :=
  fst (@CreateDb.main Journal.engine os []).

(** Lower-casing on ASCII text, an agent that echoes what it is asked, and
    one whose model cannot be reached. *)
Definition ascii_case : PyCase := {| str_lower := lower_ascii |}.

Definition echo_agent : Agent := {| agent_run := fun _ text => Return text |}.

Definition dead_agent : Agent := {|
  agent_run := fun _ _ => Raise (mkExn "ModelHTTPError" "status_code: 401")
|}.

(** An agent that echoes the first [n] texts and is out of quota then. *)
Definition tiring_agent (n : nat) : Agent := {|
  agent_run := fun k text =>
    if Nat.ltb k n then Return text
    else Raise (mkExn "ModelHTTPError" "status_code: 429")
|}.

(** A terminal whose second line is not valid text. *)
Definition garbled_terminal : Terminal := {|
  input_fault := fun k =>
    if Nat.eqb k 1
    then Some (mkExn "UnicodeDecodeError"
                 "'utf-8' codec can't decode byte 0xff in position 0: invalid start byte")
    else None;
  print_fault := fun _ _ => None
|}.

(** A terminal on which [input] and [print] always go through. *)
Definition plain_terminal : Terminal := {|
  input_fault := fun _ => None;
  print_fault := fun _ _ => None
|}.

Definition never_fails (tty : Terminal) : Prop :=
  (forall k, input_fault k = None)
  /\ (forall n line, print_fault n line = None).

(** From its [k]-th call on the agent answers the lines, one call a line,
    and none of them quits. *)
Fixpoint answered {txt : PyText} {case : PyCase} {agent : Agent}
         (k : nat) (lines : list string) : bool :=
  match lines with
  | [] => true
  | line :: rest =>
      negb (ChatClient.quits (str_strip line))
      && match agent_run k (str_strip line) with
         | Return _ => true
         | Raise _ => false
         end
      && answered (S k) rest
  end.

(** No line feed in a text. *)
Definition no_lf (s : string) : bool :=
  forallb (fun c => negb (Ascii.eqb c (ascii_of_nat 10))) (list_ascii_of_string s).

(** The texts sent to the agent, in order. *)
Fixpoint asked (events : list Event) : list string :=
  match events with
  | [] => []
  | Asked prompt :: rest => prompt :: asked rest
  | _ :: rest => asked rest
  end.

(** The longest prefix of [l] whose elements all fail [stop]. *)
Fixpoint take_until {A : Type} (stop : A -> bool) (l : list A) : list A :=
  match l with
  | [] => []
  | x :: l' => if stop x then [] else x :: take_until stop l'
  end.

(** The rows [create_db.py] inserts: the user of the [i]-th draw, a
    product, and the [i]-th order, which takes the four draws from
    [5 + 4 * i] on. *)
Definition user_row (os : Entropy) (i : nat) (name : string) : Journal.Statement :=
  ("INSERT INTO users (name, email, signup_date) VALUES (?, ?, ?);",
   Some (VList [VStr name; VStr (lower_ascii name ++ "@example.com");
                VStr (isoformat_days_ago i (randint i 1 365))])).

Definition product_row (name price : string) : Journal.Statement :=
  ("INSERT INTO products (name, price) VALUES (?, ?);",
   Some (VList [VStr name; VFloat price])).

Definition order_row (os : Entropy) (i : nat) : Journal.Statement :=
  let k := 5 + 4 * i in
  ("INSERT INTO orders (user_id, product_id, quantity, order_date) VALUES (?, ?, ?, ?);",
   Some (VList [VInt (randint k 1 5); VInt (randint (k + 1) 1 5);
                VInt (randint (k + 2) 1 10);
                VStr (isoformat_days_ago (k + 3) (randint (k + 3) 1 180))])).

(** [f"{v:.2f}"] on an [int]; every other value is refused.  The closed
    scenarios format integers only. *)
Definition int_format : PyFormat := {|
  format_2f := fun v =>
    match v with
    | VInt z => Return (str_of_int z ++ ".00")
    | _ => Raise (TypeError "unsupported format string")
    end
|}.

(** The server on the empty journal, and the dispatcher on it. *)
Definition journal_server : @SqliteServer.ServerState Journal.engine :=
  @SqliteServer.SqliteDatabase Journal.engine [] quiet_session.

Definition call_tool_journal :=
  @SqliteServer._call_tool ascii_text Journal.engine.

(** * Properties *)

(** ** Strings *)

Lemma append_assoc (a b c : string) : (a ++ b) ++ c = a ++ (b ++ c).
Proof. induction a as [| x a IH]; simpl; [reflexivity | now rewrite IH]. Qed.

Lemma append_nil_r (a : string) : a ++ "" = a.
Proof. induction a as [| x a IH]; simpl; [reflexivity | now rewrite IH]. Qed.

Lemma startswith_head (c d : ascii) (u p : string) :
  startswith (String c u) (String d p) = true -> d = c.
Proof.
  unfold startswith; simpl.
  destruct (ascii_dec d c) as [e | _]; [intros _; exact e | discriminate].
Qed.

(** A text that starts with [SELECT] starts with none of the mutation
    keywords. *)
Lemma select_is_not_mutation (u : string) :
  startswith u "SELECT" = true ->
  startswith_any u SqliteServer.mutation_prefixes = false.
Proof.
  destruct u as [| c u]; [discriminate |].
  intros H. apply startswith_head in H. subst c. reflexivity.
Qed.

Lemma startswith_any_single (u p : string) :
  startswith_any u [p] = startswith u p.
Proof. unfold startswith_any; simpl. apply orb_false_r. Qed.

Lemma startswith_any_In (u kw : string) (kws : list string) :
  In kw kws -> startswith u kw = true -> startswith_any u kws = true.
Proof.
  intros Hin Hp. unfold startswith_any. apply existsb_exists.
  exists kw. split; assumption.
Qed.

Lemma join_snoc (sep : string) (xs : list string) (x : string) :
  join sep (xs ++ [x])%list
  = match xs with
    | [] => x
    | _ => join sep xs ++ sep ++ x
    end.
Proof.
  unfold join. induction xs as [| y xs IH]; [reflexivity |].
  destruct xs as [| z xs]; [reflexivity |].
  change (String.concat sep ((y :: z :: xs) ++ [x])%list)
    with (y ++ sep ++ String.concat sep ((z :: xs) ++ [x])%list).
  rewrite IH.
  change (String.concat sep (y :: z :: xs))
    with (y ++ sep ++ String.concat sep (z :: xs)).
  now rewrite !append_assoc.
Qed.

Lemma last_line_from_LF (b acc : string) :
  last_line_from acc (LF ++ b) = last_line_from "" b.
Proof. reflexivity. Qed.

Lemma last_line_from_app (a b acc : string) :
  last_line_from acc (a ++ LF ++ b) = last_line_from "" b.
Proof.
  revert acc. induction a as [| c a IH]; intros acc; simpl; [reflexivity |].
  destruct (Ascii.eqb c (ascii_of_nat 10)); apply IH.
Qed.

(** ** The dispatcher of the SQLite server *)

Section Dispatcher.
Context {txt : PyText} {sql : Sqlite3}.
Import SqliteServer.

Lemma call_tool_unfold (name : string) (args : option pydict) (st : ServerState) :
  _call_tool name args st =
  match _call_tool_try name args st with
  | (st', Return content) => (st', Return content)
  | (st', Raise e) => (st', Return [mkText "text" ("Error: " ++ exn_str e)])
  end.
Proof. reflexivity. Qed.

(** Every path through the [try] block that returns, returns one text
    block. *)
Lemma call_tool_try_single (name : string) (args : option pydict)
      (st st' : ServerState) (content : list TextContent) :
  _call_tool_try name args st = (st', Return content) ->
  exists t, content = [t].
Proof.
  unfold _call_tool_try, bind, lift, raise, ret, db_execute_query,
    insights_append, session_send_resource_updated.
  repeat match goal with
         | |- context [if ?b then _ else _] => destruct b
         | |- context [match ?x with _ => _ end] => destruct x
         | |- (_, Return _) = (_, Return _) -> _ =>
             let H := fresh in intros H; injection H as _ <-; eexists; reflexivity
         | |- _ -> _ => discriminate
         end.
Qed.

(** C1: for every tool name, every argument mapping and every state,
    [_call_tool] returns, and what it returns is a single text block.  When
    the [try] block raised [e] (a failed guard, a missing argument, a
    failure of the engine or of the session), that block is the error
    result whose text is ["Error: "] followed by [str(e)]; the state is the
    one the failure left. *)
Theorem call_tool_never_raises
        (name : string) (args : option pydict) (st : ServerState) :
  (exists st' t, _call_tool name args st = (st', Return [t]))
  /\ match _call_tool_try name args st with
     | (st', Return content) => _call_tool name args st = (st', Return content)
     | (st', Raise e) =>
         _call_tool name args st
         = (st', Return [mkText "text" ("Error: " ++ exn_str e)])
     end.
Proof.
  rewrite call_tool_unfold.
  destruct (_call_tool_try name args st) as [st' [content | e]] eqn:E.
  - destruct (call_tool_try_single _ _ _ _ _ E) as [t ->].
    split; [exists st', t |]; reflexivity.
  - split; [eexists; eexists |]; reflexivity.
Qed.

Lemma registry_names (st : ServerState) :
  registry st = ["create_table"; "read_query"; "write_query"; "list_tables";
                 "describe_table"; "append_insight"].
Proof. reflexivity. Qed.

(** C2: a tool name that the registry does not list gets the error result
    with message ["Unknown tool: <name>"], whatever the arguments, and the
    state is left as it was. *)
Theorem unknown_tool_error
        (name : string) (args : option pydict) (st : ServerState) :
  ~ In name (registry st) ->
  _call_tool name args st
  = (st, Return [mkText "text" ("Error: " ++ "Unknown tool: " ++ name)]).
Proof.
  rewrite registry_names. intros Hout.
  rewrite call_tool_unfold. unfold _call_tool_try.
  repeat match goal with
         | |- context [String.eqb name ?k] =>
             destruct (String.eqb_spec name k) as [-> | _];
             [exfalso; apply Hout; simpl; tauto |]
         end.
  reflexivity.
Qed.

(** C8: discovery does not read or change the state: two calls in
    succession, from any state, return the same descriptors in the same
    order and leave the state as it was, and the list is the same from any
    other state. *)
Theorem list_tools_deterministic (st other : ServerState) :
  exists tools,
    bind _list_tools (fun t1 => bind _list_tools (fun t2 => ret (t1, t2))) st
    = (st, Return (tools, tools))
    /\ _list_tools other = (other, Return tools)
    /\ map name tools = registry st.
Proof. eexists. repeat split. Qed.

(** What a returned [append_insight] did to the state. *)
Lemma appended_state (d : pydict) (st st' : ServerState) :
  appended d st st' ->
  exists X,
    dict_get d "insight" = Some X
    /\ insights st' = (insights st ++ [X])%list
    /\ database st' = database st
    /\ outbox (session st') = (outbox (session st) ++ [memo_uri])%list.
Proof.
  unfold appended. rewrite call_tool_unfold.
  unfold _call_tool_try; simpl.
  unfold bind, lift, subscript, insights_append,
    session_send_resource_updated, send_resource_updated; simpl.
  destruct (dict_get d "insight") as [X |]; simpl; [| discriminate].
  destruct (faults (session st)) as [| [e |] rest]; simpl;
    intros H; inversion H; subst; clear H; simpl;
    exists X; repeat split; reflexivity.
Qed.

(** C7: a call of [append_insight] either returns its success text and
    has put exactly one notification for [memo://insights] at the end of
    the session's outbox, or it returns an error result and the outbox is
    as it was. *)
Theorem append_insight_notifies_once (args : option pydict) (st : ServerState) :
  let '(st', r) := _call_tool "append_insight" args st in
  (r = Return [mkText "text" "Insight appended"]
   /\ outbox (session st') = (outbox (session st) ++ [memo_uri])%list)
  \/ (exists e, r = Return [mkText "text" ("Error: " ++ exn_str e)]
      /\ outbox (session st') = outbox (session st)).
Proof.
  rewrite call_tool_unfold. unfold _call_tool_try; simpl.
  unfold bind, lift, insights_append, session_send_resource_updated,
    send_resource_updated; simpl.
  destruct (subscript args "insight") as [X | e]; simpl.
  - destruct (faults (session st)) as [| [e |] rest]; simpl.
    + left. split; reflexivity.
    + right. exists e. split; reflexivity.
    + left. split; reflexivity.
  - right. exists e. split; reflexivity.
Qed.
End Dispatcher.

(** ** Statement classes *)

Section Statements.
Context {txt : PyText} {sql : Sqlite3}.
Import SqliteServer.

(** [_execute_query] on a [str], case by case. *)
Lemma execute_query_unfold (q : string) (params : option pyval) (file : Db) :
  _execute_query (VStr q) params file =
  match execute (connect file) q (passed params) with
  | (c, Raise e) => (close c, Raise e)
  | (c, Return cur) =>
      if startswith_any (str_upper (str_strip q)) mutation_prefixes
      then
        match commit c with
        | (c', Return _) => (close c', Return (affected_rows cur))
        | (c', Raise e) => (close c', Raise e)
        end
      else
        match fetchall cur with
        | Return rows => (close c, Return (row_data rows))
        | Raise e => (close c, Raise e)
        end
  end.
Proof.
  unfold _execute_query.
  destruct (execute (connect file) q (passed params)) as [c [cur | e]];
    reflexivity.
Qed.


(** C3, as the code has it: [read_query] on a statement [s].  When the
    trimmed, upper-cased [s] does not start with [SELECT] the result is the
    error result of the guard and the engine is not called.  When it does,
    the engine runs [s] on a fresh connection that is closed without a
    commit: the result is the text of the fetched rows when the engine
    returns them, and the error result with the engine's message when it
    raises, on the statement or on a row it fetches; it is never the
    affected-row count. *)
Theorem read_query_select_only (d : pydict) (s : string) (st : ServerState) :
  dict_get d "query" = Some (VStr s) ->
  _call_tool "read_query" (Some d) st =
  if startswith (str_upper (str_strip s)) "SELECT" then
    match execute (connect (database st)) s None with
    | (c, Return cur) =>
        (mkState (close c) (insights st) (session st),
         Return [mkText "text"
                   match fetchall cur with
                   | Return rows => py_str (row_data rows)
                   | Raise e => "Error: " ++ exn_str e
                   end])
    | (c, Raise e) =>
        (mkState (close c) (insights st) (session st),
         Return [mkText "text" ("Error: " ++ exn_str e)])
    end
  else (st, Return [mkText "text" "Error: read_query only supports SELECT"]).
Proof.
  intros Hq. rewrite call_tool_unfold. unfold _call_tool_try; simpl.
  unfold bind, lift, subscript, strip_upper_startswith. rewrite Hq.
  rewrite startswith_any_single.
  destruct (startswith (str_upper (str_strip s)) "SELECT") eqn:Hsel; simpl;
    [| reflexivity].
  unfold db_execute_query. rewrite execute_query_unfold. cbn [passed].
  rewrite (select_is_not_mutation _ Hsel).
  destruct (execute (connect (database st)) s None) as [c [cur | e]];
    [destruct (fetchall cur) |]; reflexivity.
Qed.
End Statements.

(** ** The memo *)

Section Memo.
Context {txt : PyText} {sql : Sqlite3}.
Import SqliteServer.

Lemma memo_of_synthesize (st : ServerState) :
  memo_of st = Return (synthesize_memo (insights st)).
Proof. reflexivity. Qed.

(** The memo is the bullet list, followed by the summary exactly when more
    than one insight is recorded. *)
Lemma synthesize_memo_shape (ins : list pyval) :
  synthesize_memo ins =
  match ins with
  | [] => "No business insights have been recorded yet."
  | [_] => bullets ins
  | _ => bullets ins ++ summary (List.length ins)
  end.
Proof.
  destruct ins as [| a [| b ins]]; [reflexivity | reflexivity |].
  unfold synthesize_memo, bullets, summary.
  change (Nat.ltb 1 (List.length (a :: b :: ins))) with true. cbv iota.
  now rewrite !append_assoc.
Qed.

Lemma bullets_snoc (ins : list pyval) (X : pyval) :
  exists pre, bullets (ins ++ [X]) = pre ++ LF ++ "- " ++ py_str X.
Proof.
  unfold bullets. rewrite map_app. cbn [map]. rewrite join_snoc.
  destruct ins as [| a ins].
  - exists ("📊 Business Insights Memo 📊" ++ LF ++ LF ++ "Key Insights:").
    now rewrite !append_assoc.
  - exists ("📊 Business Insights Memo 📊" ++ LF ++ LF ++ "Key Insights:" ++ LF
            ++ join LF (map (fun i => "- " ++ py_str i) (a :: ins))).
    cbn [map]. now rewrite !append_assoc.
Qed.

Lemma memo_has_last_bullet (ins : list pyval) (X : pyval) :
  exists pre post,
    synthesize_memo (ins ++ [X]) = pre ++ LF ++ "- " ++ py_str X ++ post.
Proof.
  rewrite synthesize_memo_shape.
  destruct (bullets_snoc ins X) as [pre Hpre].
  destruct (ins ++ [X])%list as [| a [| b l]] eqn:E.
  - destruct ins; discriminate.
  - exists pre, "". rewrite Hpre. now rewrite append_nil_r.
  - exists pre, (summary (List.length (a :: b :: l))).
    rewrite Hpre. now rewrite !append_assoc.
Qed.

(** C5: after [append_insight] has returned its success text for an
    insight [X], the memo read from [memo://insights] holds the bullet
    line ["- X"]; when the server had no insight before and a second
    insight is appended, the last line of the memo is
    ["2 insights suggest strategic opportunities."]; and for every list of
    insights the memo is the bullet list alone when there is one insight
    and the bullet list followed by the summary when there are more. *)
Theorem memo_after_append
        (dX dY : pydict) (X : pyval) (st0 st1 st2 : ServerState) :
  dict_get dX "insight" = Some X ->
  appended dX st0 st1 ->
  (exists pre post,
      memo_of st1 = Return (pre ++ LF ++ "- " ++ py_str X ++ post))
  /\ (insights st0 = [] -> appended dY st1 st2 ->
      exists memo,
        memo_of st2 = Return memo
        /\ last_line memo = "2 insights suggest strategic opportunities.")
  /\ (forall ins : list pyval,
        synthesize_memo ins =
        match ins with
        | [] => "No business insights have been recorded yet."
        | [_] => bullets ins
        | _ => bullets ins ++ summary (List.length ins)
        end).
Proof.
  intros HX H1.
  destruct (appended_state _ _ _ H1) as (X' & HX' & Hins1 & _).
  rewrite HX in HX'. injection HX' as <-.
  split; [| split].
  - rewrite memo_of_synthesize, Hins1.
    destruct (memo_has_last_bullet (insights st0) X) as (pre & post & E).
    exists pre, post. now rewrite E.
  - intros Hempty H2.
    destruct (appended_state _ _ _ H2) as (Y & _ & Hins2 & _).
    rewrite Hins1, Hempty in Hins2. simpl in Hins2.
    eexists. split; [rewrite memo_of_synthesize, Hins2; reflexivity |].
    rewrite synthesize_memo_shape. unfold summary, last_line.
    rewrite last_line_from_app, last_line_from_LF, last_line_from_app.
    reflexivity.
  - apply synthesize_memo_shape.
Qed.
End Memo.

(** ** The dispatcher at work on the catalog engine *)

Import SqliteServer.

Example missing_argument_is_reported :
  call_tool_catalog "read_query" (Some [("limit", VInt 5)]) empty_server
  = (empty_server, Return [mkText "text" "Error: 'query'"]).
Proof. reflexivity. Qed.

Example absent_arguments_are_reported :
  call_tool_catalog "write_query" None empty_server
  = (empty_server,
     Return [mkText "text" "Error: 'NoneType' object is not subscriptable"]).
Proof. reflexivity. Qed.

Example write_query_rejects_select :
  call_tool_catalog "write_query" (Some [("query", VStr "  select 1")]) empty_server
  = (empty_server,
     Return [mkText "text" "Error: write_query does not support SELECT"]).
Proof. reflexivity. Qed.

Example create_table_reports_rowcount :
  call_tool_catalog "create_table"
    (Some [("query", VStr "create table notes (body TEXT)")]) empty_server
  = (mkState (["notes"] : @Db Catalog.engine) [] quiet_session,
     Return [mkText "text" "[{'affected_rows': -1}]"]).
Proof. reflexivity. Qed.

(** A session whose next send fails: the call answers with the error
    result, nothing is delivered, and the insight stays recorded. *)
Example failed_send_is_reported :
  let broken := mkSession [] [Some (mkExn "ClosedResourceError" "stream closed")] in
  call_tool_catalog "append_insight" (Some [("insight", VStr "X")])
    (mkState ([] : @Db Catalog.engine) [] broken)
  = (mkState ([] : @Db Catalog.engine) [VStr "X"] quiet_session,
     Return [mkText "text" "Error: stream closed"]).
Proof. reflexivity. Qed.

Example seeded_catalog (os : Entropy) :
  seeded_file os = ["users"; "sqlite_sequence"; "products"; "orders"].
Proof. vm_compute. reflexivity. Qed.

(** ** Claims on closed inputs *)

Lemma unknown_tool_error_witness :
  ~ In "drop_everything" (registry empty_server)
  /\ call_tool_catalog "drop_everything" (Some [("force", VBool true)]) empty_server
     = (empty_server,
        Return [mkText "text" "Error: Unknown tool: drop_everything"]).
Proof.
  assert (H : ~ In "drop_everything" (registry empty_server)).
  { simpl. intros [E | [E | [E | [E | [E | [E | []]]]]]]; discriminate E. }
  split; [exact H |].
  exact (@unknown_tool_error ascii_text Catalog.engine "drop_everything"
           (Some [("force", VBool true)]) empty_server H).
Defined.



(** Without [RETURNING] the same row is committed and counted. *)
Example execute_query_insert_committed :
  @_execute_query ascii_text Notes.engine
    (VStr "INSERT INTO notes (body) VALUES ('a')") None []
  = (["a"], Return (VList [VDict [("affected_rows", VInt 1)]])).
Proof. vm_compute. reflexivity. Qed.

(** C3 as stated fails: on the empty database the statement
    [SELECT * FROM missing] starts with [SELECT], and [read_query] answers
    with the engine's error, which is not the text of any list of rows. *)
Lemma read_query_select_can_fail :
  startswith (upper_ascii (strip_ascii "SELECT * FROM missing")) "SELECT" = true
  /\ call_tool_catalog "read_query"
       (Some [("query", VStr "SELECT * FROM missing")]) empty_server
     = (empty_server, Return [mkText "text" "Error: no such table: missing"])
  /\ ~ (exists rows : list pyval,
          "Error: no such table: missing" = @py_str ascii_text (VList rows)).
Proof.
  split; [reflexivity | split; [reflexivity |]].
  intros [rows H]. simpl in H. discriminate H.
Qed.

Lemma read_query_select_only_witness :
  call_tool_catalog "read_query"
    (Some [("query", VStr (" " ++ list_tables_query))])
    (seeded_server fixed_draws quiet_session)
  = (seeded_server fixed_draws quiet_session,
     Return [mkText "text"
               "[{'name': 'orders'}, {'name': 'products'}, {'name': 'sqlite_sequence'}, {'name': 'users'}]"]).
Proof.
  exact (eq_trans
           (@read_query_select_only ascii_text Catalog.engine
              [("query", VStr (" " ++ list_tables_query))]
              (" " ++ list_tables_query)
              (seeded_server fixed_draws quiet_session) eq_refl)
           eq_refl).
Defined.

Lemma memo_after_append_witness :
  exists memo,
    @memo_of ascii_text Catalog.engine
      (mkState ([] : @Db Catalog.engine) [VStr "X"; VStr "Y"]
               (mkSession [memo_uri; memo_uri] []))
    = Return memo
    /\ last_line memo = "2 insights suggest strategic opportunities.".
Proof.
  destruct (@memo_after_append ascii_text Catalog.engine
              [("insight", VStr "X")] [("insight", VStr "Y")] (VStr "X")
              empty_server
              (mkState ([] : @Db Catalog.engine) [VStr "X"]
                 (mkSession [memo_uri] []))
              (mkState ([] : @Db Catalog.engine) [VStr "X"; VStr "Y"]
                 (mkSession [memo_uri; memo_uri] []))
              eq_refl eq_refl) as [_ [H _]].
  exact (H eq_refl eq_refl).
Defined.

(** C6, as the code has it: on the database that [create_db.py] makes from
    an empty file, whatever the random draws, [list_tables] returns the
    success text that lists four names in byte order: [orders], [products],
    [sqlite_sequence] and [users].  The fourth is the table SQLite creates
    for the [AUTOINCREMENT] columns; the query does not filter it out. *)
Theorem list_tables_after_seeding
        (os : Entropy) (s : Session) (args : option pydict) :
  call_tool_catalog "list_tables" args (seeded_server os s)
  = (seeded_server os s,
     Return [mkText "text"
               (@py_str ascii_text
                  (VList [VDict [("name", VStr "orders")];
                          VDict [("name", VStr "products")];
                          VDict [("name", VStr "sqlite_sequence")];
                          VDict [("name", VStr "users")]]))]).
Proof. vm_compute. reflexivity. Qed.

(** C6 as stated fails: the text [list_tables] returns on the seeded
    database is not the listing of the three tables the script names. *)
Lemma list_tables_is_not_three_names :
  snd (call_tool_catalog "list_tables" None (seeded_server fixed_draws quiet_session))
  <> Return [mkText "text"
               (@py_str ascii_text
                  (VList [VDict [("name", VStr "orders")];
                          VDict [("name", VStr "products")];
                          VDict [("name", VStr "users")]]))].
Proof. vm_compute. intros H. discriminate H. Qed.

(** ** The GitHub search tool *)

Section Github.
Context {txt : PyText} {net : Http}.
Import GithubServer.

(** C10: when [name] and [location] are both absent or empty, then for
    every [per_page] the tool sends no HTTP request (the list of requests
    sent is unchanged) and returns, not raises, the JSON text
    [guard_payload]. *)
Theorem github_search_guard
        (name location : option string) (per_page : Z) (sent : list Request) :
  name = None \/ name = Some "" ->
  location = None \/ location = Some "" ->
  github_search name location per_page sent = (sent, Return guard_payload).
Proof.
  intros [-> | ->] [-> | ->]; reflexivity.
Qed.
End Github.

Lemma github_search_guard_witness :
  @GithubServer.github_search ascii_text offline None (Some "") 100 []
  = ([], Return guard_payload).
Proof.
  exact (@github_search_guard ascii_text offline None (Some "") 100 []
           (or_introl eq_refl) (or_intror eq_refl)).
Defined.

(** With a name the request does go out. *)
Example github_search_sends_request :
  fst (@GithubServer.github_search ascii_text offline (Some "octo") None 5 [])
  = [mkRequest "https://api.github.com/search/users"
       [("q", VStr "octo in:login"); ("per_page", VInt 5)]
       [("Accept", "application/vnd.github.v3+json")] "10.0"].
Proof. reflexivity. Qed.

(** ** The [add] tool *)

(** C9: [add] on 2 and 3 returns the number 5. *)
Theorem add_2_3 : MultiTools.add 2 3 = 5%float.
Proof. vm_compute. reflexivity. Qed.

(** * Further properties of the code *)

(** ** More on prefixes and lines *)

Lemma startswith_trans (u p q : string) :
  startswith u p = true -> startswith p q = true -> startswith u q = true.
Proof.
  unfold startswith. revert u p.
  induction q as [| c q IH]; intros u p Hup Hpq; [now destruct u |].
  destruct p as [| d p]; [discriminate |].
  destruct u as [| e u]; [discriminate |].
  simpl in *.
  destruct (ascii_dec c d) as [-> | _]; [| discriminate].
  destruct (ascii_dec d e) as [-> | _]; [| discriminate].
  destruct (ascii_dec e e) as [_ | n]; [| now elim n].
  now apply (IH u p).
Qed.

(** A text that starts with a mutation keyword does not start with
    [SELECT]. *)
Lemma mutation_is_not_select (u kw : string) :
  In kw SqliteServer.mutation_prefixes ->
  startswith u kw = true -> startswith u "SELECT" = false.
Proof.
  intros Hin Hkw.
  destruct (startswith u "SELECT") eqn:Hsel; [| reflexivity].
  pose proof (select_is_not_mutation u Hsel) as Hnone.
  now rewrite (startswith_any_In u kw _ Hin Hkw) in Hnone.
Qed.

Lemma last_line_from_no_lf (rest acc : string) :
  no_lf rest = true -> last_line_from acc rest = acc ++ rest.
Proof.
  revert acc. induction rest as [| c rest IH]; intros acc H; simpl.
  - now rewrite append_nil_r.
  - unfold no_lf in H. simpl in H. apply andb_true_iff in H as [Hc Hrest].
    apply negb_true_iff in Hc. rewrite Hc.
    rewrite (IH _ Hrest). now rewrite append_assoc.
Qed.

Lemma no_lf_app (a b : string) : no_lf (a ++ b) = no_lf a && no_lf b.
Proof.
  unfold no_lf. induction a as [| c a IH]; simpl; [reflexivity |].
  now rewrite IH, andb_assoc.
Qed.

Lemma no_lf_uint (d : Decimal.uint) : no_lf (NilEmpty.string_of_uint d) = true.
Proof. induction d; simpl; auto. Qed.

Lemma no_lf_str_of_nat (n : nat) : no_lf (str_of_int (Z.of_nat n)) = true.
Proof.
  unfold str_of_int. destruct (Z.of_nat n) as [| p | p] eqn:E.
  - reflexivity.
  - simpl. unfold NilZero.string_of_uint.
    destruct (Pos.to_uint p); try reflexivity; apply no_lf_uint.
  - exfalso. pose proof (Nat2Z.is_nonneg n) as Hn. rewrite E in Hn.
    now apply Hn.
Qed.

(** ** The other tools of the SQLite server *)

Section MoreTools.
Context {txt : PyText} {sql : Sqlite3}.
Import SqliteServer.

Lemma write_query_unfold (d : pydict) (s : string) (st : ServerState) :
  dict_get d "query" = Some (VStr s) ->
  _call_tool "write_query" (Some d) st =
  if startswith (str_upper (str_strip s)) "SELECT"
  then (st, Return [mkText "text" "Error: write_query does not support SELECT"])
  else
    match execute (connect (database st)) s None with
    | (c, Raise e) =>
        (mkState (close c) (insights st) (session st),
         Return [mkText "text" ("Error: " ++ exn_str e)])
    | (c, Return cur) =>
        if startswith_any (str_upper (str_strip s)) mutation_prefixes
        then
          match commit c with
          | (c', Return _) =>
              (mkState (close c') (insights st) (session st),
               Return [mkText "text" (py_str (affected_rows cur))])
          | (c', Raise e) =>
              (mkState (close c') (insights st) (session st),
               Return [mkText "text" ("Error: " ++ exn_str e)])
          end
        else
          (mkState (close c) (insights st) (session st),
           Return [mkText "text"
                     match fetchall cur with
                     | Return rows => py_str (row_data rows)
                     | Raise e => "Error: " ++ exn_str e
                     end])
    end.
Proof.
  intros Hq. rewrite call_tool_unfold.
  match goal with |- _ = ?rhs => set (outcome := rhs) end.
  unfold _call_tool_try; simpl.
  unfold bind, lift, subscript, strip_upper_startswith. rewrite Hq.
  rewrite startswith_any_single. subst outcome.
  destruct (startswith (str_upper (str_strip s)) "SELECT"); [reflexivity |].
  unfold db_execute_query. rewrite execute_query_unfold. cbn [passed].
  destruct (execute (connect (database st)) s None) as [c [cur | e]];
    [| reflexivity].
  destruct (startswith_any (str_upper (str_strip s)) mutation_prefixes).
  - destruct (commit c) as [c' [u | e]]; reflexivity.
  - destruct (fetchall cur); reflexivity.
Qed.

(** X1: [write_query] refuses a statement whose trimmed, upper-cased text
    starts with [SELECT]: the error result of the guard comes back and the
    state, the database file included, is as it was. *)
Theorem write_query_refuses_select (d : pydict) (s : string) (st : ServerState) :
  dict_get d "query" = Some (VStr s) ->
  startswith (str_upper (str_strip s)) "SELECT" = true ->
  _call_tool "write_query" (Some d) st
  = (st, Return [mkText "text" "Error: write_query does not support SELECT"]).
Proof.
  intros Hq Hsel. rewrite (write_query_unfold d s st Hq). now rewrite Hsel.
Qed.

(** X2: a statement that starts with one of the six mutation keywords
    passes the guard of [write_query]; once the engine has executed it the
    tool asks for the commit.  When the commit returns, the file is the
    committed one and the answer is the affected-row count; when the commit
    raises, the file is what the failed commit left behind and the answer is
    the error result with the engine's message. *)
Theorem write_query_listed_committed
        (d : pydict) (s kw : string) (st : ServerState)
        (c : Connection) (cur : Cursor) :
  dict_get d "query" = Some (VStr s) ->
  In kw ["INSERT"; "UPDATE"; "DELETE"; "CREATE"; "DROP"; "ALTER"] ->
  startswith (str_upper (str_strip s)) kw = true ->
  execute (connect (database st)) s None = (c, Return cur) ->
  _call_tool "write_query" (Some d) st
  = match commit c with
    | (c', Return _) =>
        (mkState (close c') (insights st) (session st),
         Return [mkText "text"
                   (py_str (VList [VDict [("affected_rows",
                                           VInt (rowcount cur))]]))])
    | (c', Raise e) =>
        (mkState (close c') (insights st) (session st),
         Return [mkText "text" ("Error: " ++ exn_str e)])
    end.
Proof.
  intros Hq Hin Hkw Hexec. rewrite (write_query_unfold d s st Hq).
  rewrite (mutation_is_not_select _ kw Hin Hkw), Hexec.
  now rewrite (startswith_any_In _ kw mutation_prefixes Hin Hkw).
Qed.

(** X3: a statement that starts neither with [SELECT] nor with one of the
    six keywords (a [REPLACE], a [WITH ... INSERT], a statement behind a
    comment) also passes the guard of [write_query], but after the engine
    has executed it the connection is closed without a commit and the tool
    answers with the fetched rows, or with the error result when fetching
    them fails. *)
Theorem write_query_unlisted_not_committed
        (d : pydict) (s : string) (st : ServerState)
        (c : Connection) (cur : Cursor) :
  dict_get d "query" = Some (VStr s) ->
  startswith (str_upper (str_strip s)) "SELECT" = false ->
  startswith_any (str_upper (str_strip s))
    ["INSERT"; "UPDATE"; "DELETE"; "CREATE"; "DROP"; "ALTER"] = false ->
  execute (connect (database st)) s None = (c, Return cur) ->
  _call_tool "write_query" (Some d) st
  = (mkState (close c) (insights st) (session st),
     Return [mkText "text"
               match fetchall cur with
               | Return rows => py_str (row_data rows)
               | Raise e => "Error: " ++ exn_str e
               end]).
Proof.
  intros Hq Hsel Hnone Hexec. rewrite (write_query_unfold d s st Hq).
  rewrite Hsel, Hexec. unfold mutation_prefixes. now rewrite Hnone.
Qed.

(** X4: [create_table] lets through only statements that start with
    [CREATE TABLE], and for what it lets through the commit always follows
    the execution: the guard's prefix is one of the mutation keywords
    followed by more text.  The answer is the affected-row count once the
    commit has returned, and the error result when the engine fails, on the
    statement or on the commit.  A refused statement leaves the state as it
    was. *)
Theorem create_table_outcome (d : pydict) (s : string) (st : ServerState) :
  dict_get d "query" = Some (VStr s) ->
  _call_tool "create_table" (Some d) st =
  if startswith (str_upper (str_strip s)) "CREATE TABLE" then
    match execute (connect (database st)) s None with
    | (c, Return cur) =>
        match commit c with
        | (c', Return _) =>
            (mkState (close c') (insights st) (session st),
             Return [mkText "text" (py_str (affected_rows cur))])
        | (c', Raise e) =>
            (mkState (close c') (insights st) (session st),
             Return [mkText "text" ("Error: " ++ exn_str e)])
        end
    | (c, Raise e) =>
        (mkState (close c) (insights st) (session st),
         Return [mkText "text" ("Error: " ++ exn_str e)])
    end
  else (st, Return [mkText "text" "Error: create_table only supports CREATE TABLE"]).
Proof.
  intros Hq. rewrite call_tool_unfold.
  match goal with |- _ = ?rhs => set (outcome := rhs) end.
  unfold _call_tool_try; simpl.
  unfold bind, lift, subscript, strip_upper_startswith. rewrite Hq.
  rewrite startswith_any_single. subst outcome.
  destruct (startswith (str_upper (str_strip s)) "CREATE TABLE") eqn:Hct;
    [| reflexivity].
  assert (Hm : startswith_any (str_upper (str_strip s)) mutation_prefixes = true).
  { apply (startswith_any_In _ "CREATE"); [simpl; tauto |].
    now apply (startswith_trans _ "CREATE TABLE"). }
  cbn [negb]. unfold db_execute_query. rewrite execute_query_unfold.
  cbn [passed].
  rewrite Hm.
  destruct (execute (connect (database st)) s None) as [c [cur | e]];
    [destruct (commit c) as [c' [u | e]] |]; reflexivity.
Qed.

(** X5: [describe_table] without arguments, without a [table_name], or
    with one that is false in Python ([None], [""], [0], [False], an empty
    list or dict) answers with the error result [Missing 'table_name'] and
    does not reach the engine. *)
Theorem describe_table_missing_name (args : option pydict) (st : ServerState) :
  args = None
  \/ (exists d, args = Some d
                /\ (dict_get d "table_name" = None
                    \/ exists v, dict_get d "table_name" = Some v
                                 /\ truthy v = false)) ->
  _call_tool "describe_table" args st
  = (st, Return [mkText "text" "Error: Missing 'table_name'"]).
Proof.
  intros H. rewrite call_tool_unfold. unfold _call_tool_try; simpl.
  destruct H as [-> | (d & -> & H)]; [reflexivity |].
  destruct d as [| kv d]; [reflexivity |].
  destruct H as [-> | (v & -> & Hv)]; [reflexivity |].
  now rewrite Hv.
Qed.

Lemma call_tool_try_frame (name : string) (args : option pydict)
      (st st' : ServerState) (r : result (list TextContent)) :
  name <> "append_insight" ->
  _call_tool_try name args st = (st', r) ->
  insights st' = insights st /\ session st' = session st.
Proof.
  intros Hname. unfold _call_tool_try.
  destruct (String.eqb_spec name "append_insight") as [E | _];
    [now elim Hname |].
  unfold bind, lift, raise, ret, db_execute_query.
  repeat match goal with
         | |- context [_execute_query ?q ?p ?file] =>
             destruct (_execute_query q p file)
         | |- context [if ?b then _ else _] => destruct b
         | |- context [match ?x with _ => _ end] => destruct x
         | |- (_, _) = (_, _) -> _ =>
             let H := fresh in
             intros H; injection H as <- _; simpl; split; reflexivity
         end.
Qed.

(** X6: no tool but [append_insight] touches the memo: after any other
    call, known or unknown, failed or not, the insight list and the session
    (so the notifications sent) are what they were. *)
Theorem other_tools_leave_memo
        (name : string) (args : option pydict) (st : ServerState) :
  name <> "append_insight" ->
  insights (fst (_call_tool name args st)) = insights st
  /\ session (fst (_call_tool name args st)) = session st.
Proof.
  intros Hname. rewrite call_tool_unfold.
  destruct (_call_tool_try name args st) as [st' [content | e]] eqn:E;
    exact (call_tool_try_frame _ _ _ _ _ Hname E).
Qed.

(** X7: [append_insight] never reaches the database, and one call makes
    the insight list longer by at most one entry, added at the end. *)
Theorem append_insight_frame (args : option pydict) (st : ServerState) :
  database (fst (_call_tool "append_insight" args st)) = database st
  /\ (insights (fst (_call_tool "append_insight" args st)) = insights st
      \/ exists X, insights (fst (_call_tool "append_insight" args st))
                   = (insights st ++ [X])%list).
Proof.
  rewrite call_tool_unfold. unfold _call_tool_try; simpl.
  unfold bind, lift, insights_append, session_send_resource_updated,
    send_resource_updated; simpl.
  destruct (subscript args "insight") as [X | e]; simpl.
  - destruct (faults (session st)) as [| [e |] rest]; simpl;
      (split; [reflexivity | right; exists X; reflexivity]).
  - split; [reflexivity | left; reflexivity].
Qed.

(** X8: when the notification cannot be sent, [append_insight] answers
    with the error result of the send and nothing is delivered, but the
    insight has been recorded all the same: the memo has changed under an
    error result. *)
Theorem append_insight_failed_send
        (d : pydict) (X : pyval) (st : ServerState)
        (e : exn) (rest : list (option exn)) :
  dict_get d "insight" = Some X ->
  faults (session st) = Some e :: rest ->
  _call_tool "append_insight" (Some d) st
  = (mkState (database st) (insights st ++ [X])%list
       (mkSession (outbox (session st)) rest),
     Return [mkText "text" ("Error: " ++ exn_str e)]).
Proof.
  intros HX Hf. rewrite call_tool_unfold. unfold _call_tool_try; simpl.
  unfold bind, lift, subscript, insights_append,
    session_send_resource_updated, send_resource_updated; simpl.
  now rewrite HX, Hf.
Qed.

(** X9: with two insights or more, the last line of the memo reports how
    many there are. *)
Theorem memo_last_line_counts (ins : list pyval) :
  2 <= List.length ins ->
  last_line (synthesize_memo ins)
  = str_of_int (Z.of_nat (List.length ins))
    ++ " insights suggest strategic opportunities.".
Proof.
  intros Hlen. rewrite synthesize_memo_shape.
  destruct ins as [| a [| b ins]]; simpl in Hlen; try lia.
  unfold summary, last_line.
  rewrite last_line_from_app, last_line_from_LF, last_line_from_app.
  rewrite last_line_from_no_lf; [reflexivity |].
  rewrite no_lf_app, no_lf_str_of_nat. reflexivity.
Qed.

(** X10: [_read_resource] looks at the scheme and the host of the URI and
    at nothing else: it returns the memo exactly when they are [memo] and
    [insights], whatever the rest of the URI; otherwise it raises; and it
    leaves the state as it is. *)
Theorem read_resource_memo_iff (u : AnyUrl) (st : ServerState) :
  fst (_read_resource u st) = st
  /\ ((scheme u = "memo" /\ host u = Some "insights")
      -> snd (_read_resource u st) = Return (synthesize_memo (insights st)))
  /\ (~ (scheme u = "memo" /\ host u = Some "insights")
      -> snd (_read_resource u st)
         = Raise (ValueError ("Unknown resource: " ++ url_str u))).
Proof.
  unfold _read_resource.
  destruct (String.eqb_spec (scheme u) "memo") as [Hs | Hs]; simpl.
  - destruct (host u) as [h |] eqn:Hh.
    + destruct (String.eqb_spec h "insights") as [-> | Hn]; simpl.
      * split; [reflexivity | split]; [reflexivity |].
        intros Hno. elim Hno. now split.
      * split; [reflexivity | split]; [| reflexivity].
        intros [_ E]. injection E as E. now elim Hn.
    + split; [reflexivity | split]; [| reflexivity].
      intros [_ E]. discriminate E.
  - split; [reflexivity | split]; [| reflexivity].
    intros [E _]. now elim Hs.
Qed.
End MoreTools.

(** ** The prompt *)

Section Prompt.
Context {txt : PyText}.
Import SqlitePrompts.

(** X11: [_get_prompt] returns exactly when the name is [mcp-demo] and the
    arguments hold a [topic] (an empty topic included): it then returns one
    message, from the user, whose text is the stripped template with the
    topic in it.  In every other case, an unknown prompt name included, it
    raises the same [ValueError] about [mcp-demo]. *)
Theorem get_prompt_returns_iff (name : string) (args : option pydict) :
  (forall d topic,
      name = "mcp-demo" -> args = Some d -> dict_get d "topic" = Some topic ->
      _get_prompt name args
      = Return (mkGetPromptResult ("Demo for topic: " ++ py_str topic)
                  [mkPromptMessage "user"
                     (SqliteServer.mkText "text"
                        (str_strip (PROMPT_TEMPLATE_format topic)))]))
  /\ (~ (name = "mcp-demo"
         /\ exists d topic, args = Some d /\ dict_get d "topic" = Some topic)
      -> _get_prompt name args
         = Raise (ValueError "Prompt 'mcp-demo' requires a 'topic' argument")).
Proof.
  unfold _get_prompt. split.
  - intros d topic -> -> Ht. simpl.
    destruct d as [| kv d]; [discriminate |].
    now rewrite Ht.
  - intros Hno. destruct (String.eqb_spec name "mcp-demo") as [-> | _];
      [| reflexivity].
    destruct args as [[| kv d] |]; try reflexivity.
    destruct (dict_get (kv :: d) "topic") as [topic |] eqn:Ht; [| reflexivity].
    exfalso. apply Hno. split; [reflexivity |].
    exists (kv :: d), topic. now split.
Qed.
End Prompt.

(** ** The rest of [github_search] *)

Section MoreGithub.
Context {txt : PyText} {net : Http}.
Import GithubServer.

(** The proofs below go through the three ways the query can be built. *)
Ltac github_cases name location Hgiven :=
  unfold github_search;
  destruct (given name) eqn:?, (given location) eqn:?;
  try (destruct Hgiven; discriminate);
  cbn [app]; unfold bind, client_get, lift.

(** X13: when a name or a location is given, [github_search] sends exactly
    one request, whatever the network answers: a GET of the user search
    with the parts of the query joined by [+] and the [per_page] as given.
    The [Authorization] header is there exactly when [GITHUB_TOKEN] is set
    and not empty. *)
Theorem github_search_one_request
        (name location : option string) (per_page : Z) (sent : list Request) :
  given name = true \/ given location = true ->
  fst (github_search name location per_page sent)
  = app sent
     [mkRequest "https://api.github.com/search/users"
        [("q", VStr ((if given name then text_of name ++ " in:login" else "")
                     ++ (if given name && given location then "+" else "")
                     ++ (if given location
                         then "location:" ++ text_of location else "")));
         ("per_page", VInt per_page)]
        (("Accept", "application/vnd.github.v3+json")
         :: match getenv "GITHUB_TOKEN" with
            | Some token =>
                if String.eqb token "" then []
                else [("Authorization", "token " ++ token)]
            | None => []
            end)
        "10.0"].
Proof.
  intros Hgiven.
  assert (Hheaders :
            (if given (getenv "GITHUB_TOKEN")
             then [("Authorization", "token " ++ text_of (getenv "GITHUB_TOKEN"))]
             else [])
            = match getenv "GITHUB_TOKEN" with
              | Some token =>
                  if String.eqb token "" then []
                  else [("Authorization", "token " ++ token)]
              | None => []
              end).
  { destruct (getenv "GITHUB_TOKEN") as [token |]; [| reflexivity].
    simpl. now destruct (String.eqb token ""). }
  unfold github_search.
  destruct (given name) eqn:Hn, (given location) eqn:Hl;
    try (destruct Hgiven; discriminate);
    cbn [app andb]; unfold join; cbn [String.concat];
    rewrite Hheaders; rewrite ?append_nil_r;
    unfold bind, client_get, lift;
    cbn [String.append];
    match goal with
    | |- context [http_get ?r] => destruct (http_get r) as [resp | e]
    end; try reflexivity;
    repeat match goal with
           | |- context [if ?b then _ else _] => destruct b
           | |- context [match ?x with Return _ => _ | Raise _ => _ end] =>
               destruct x
           end; reflexivity.
Qed.

(** X14: a failure of the network is not caught: [github_search] raises
    the exception of the HTTP client as it is. *)
Theorem github_search_network_failure
        (name location : option string) (per_page : Z) (sent : list Request)
        (e : exn) :
  given name = true \/ given location = true ->
  (forall r, http_get r = Raise e) ->
  snd (github_search name location per_page sent) = Raise e.
Proof.
  intros Hgiven Hnet. github_cases name location Hgiven; now rewrite Hnet.
Qed.

(** X15: an answer with a status other than 200 is returned, not raised,
    as a JSON object whose [error] member holds the status code and the
    body of the answer. *)
Theorem github_search_upstream_error
        (name location : option string) (per_page : Z) (sent : list Request)
        (resp : Response) :
  given name = true \/ given location = true ->
  (forall r, http_get r = Return resp) ->
  status_code resp <> 200%Z ->
  snd (github_search name location per_page sent)
  = Return ("{" ++ String DQUOTE "error" ++ String DQUOTE ": "
            ++ json_string ("GitHub API returned "
                            ++ str_of_int (status_code resp) ++ ": "
                            ++ resp_text resp)
            ++ "}").
Proof.
  intros Hgiven Hnet Hstatus. apply Z.eqb_neq in Hstatus.
  github_cases name location Hgiven; rewrite Hnet, Hstatus; reflexivity.
Qed.

(** X16: an answer 200 whose JSON object has no [items] gives the empty
    JSON list. *)
Theorem github_search_no_items
        (name location : option string) (per_page : Z) (sent : list Request)
        (resp : Response) (body : pydict) :
  given name = true \/ given location = true ->
  (forall r, http_get r = Return resp) ->
  status_code resp = 200%Z ->
  resp_json resp = Return (VDict body) ->
  dict_get body "items" = None ->
  snd (github_search name location per_page sent) = Return "[]".
Proof.
  intros Hgiven Hnet Hstatus Hjson Hitems.
  github_cases name location Hgiven; rewrite Hnet, Hstatus, Hjson; cbn [Z.eqb Pos.eqb negb];
    unfold py_get; rewrite Hitems; reflexivity.
Qed.

(** X17: a user in [items] that has no [login] makes the tool raise
    [KeyError], whatever follows it in the list. *)
Theorem github_search_user_without_login
        (name location : option string) (per_page : Z) (sent : list Request)
        (resp : Response) (body user : pydict) (others : list pyval) :
  given name = true \/ given location = true ->
  (forall r, http_get r = Return resp) ->
  status_code resp = 200%Z ->
  resp_json resp = Return (VDict body) ->
  dict_get body "items" = Some (VList (VDict user :: others)) ->
  dict_get user "login" = None ->
  snd (github_search name location per_page sent) = Raise (KeyError "login").
Proof.
  intros Hgiven Hnet Hstatus Hjson Hitems Hlogin.
  github_cases name location Hgiven; rewrite Hnet, Hstatus, Hjson; cbn [Z.eqb Pos.eqb negb];
    unfold py_get; rewrite Hitems; cbn [py_iter comprehension];
    unfold py_getitem, subscript; rewrite Hlogin; reflexivity.
Qed.

(** X18: from a user with a [login] and an [html_url] and no [score] the
    tool keeps the login, passes the [html_url] on under the name [url],
    and gives the score 0. *)
Theorem github_search_single_user
        (name location : option string) (per_page : Z) (sent : list Request)
        (resp : Response) (body user : pydict) (login html_url : string) :
  given name = true \/ given location = true ->
  (forall r, http_get r = Return resp) ->
  status_code resp = 200%Z ->
  resp_json resp = Return (VDict body) ->
  dict_get body "items" = Some (VList [VDict user]) ->
  dict_get user "login" = Some (VStr login) ->
  dict_get user "html_url" = Some (VStr html_url) ->
  dict_get user "score" = None ->
  snd (github_search name location per_page sent)
  = Return ("[{" ++ String DQUOTE "login" ++ String DQUOTE ": "
            ++ json_string login ++ ", "
            ++ String DQUOTE "url" ++ String DQUOTE ": "
            ++ json_string html_url ++ ", "
            ++ String DQUOTE "score" ++ String DQUOTE ": 0}]").
Proof.
  intros Hgiven Hnet Hstatus Hjson Hitems Hlogin Hurl Hscore.
  github_cases name location Hgiven; rewrite Hnet, Hstatus, Hjson; cbn [Z.eqb Pos.eqb negb];
    unfold py_get; rewrite Hitems; cbn [py_iter comprehension];
    unfold py_getitem, subscript, py_get; rewrite Hlogin, Hurl, Hscore;
    cbn [json_dumps]; change (json_int 0) with (@Return string "0");
    cbn [json_dumps]; unfold join; cbn [String.concat];
    rewrite !append_assoc; reflexivity.
Qed.
End MoreGithub.

(** ** The network tools of the multi-tools server *)

Lemma append_not_empty (a b : string) (c : ascii) :
  String.eqb (a ++ String c b) "" = false.
Proof. destruct a; reflexivity. Qed.

Section MoreMultiTools.
Context {txt : PyText} {net : Http} {fmt : PyFormat} {xml : ElementTree}.
Import GithubServer MultiToolsServer.

Lemma with_url_truthy (text url : pyval) :
  truthy text = true -> truthy (with_url text url) = true.
Proof.
  intros Ht. unfold with_url. destruct (truthy url); [| exact Ht].
  simpl. now rewrite append_not_empty.
Qed.

Lemma entry_answer_truthy (v x : pyval) :
  entry_answer v = Return (Some x) -> truthy x = true.
Proof.
  unfold entry_answer.
  destruct (py_get v "Text" VNone) as [text | e]; [| discriminate].
  destruct (truthy text) eqn:Ht; [| discriminate].
  destruct (py_get v "FirstURL" (VStr "")) as [url | e]; [| discriminate].
  intros H. injection H as <-. now apply with_url_truthy.
Qed.

Lemma scan_subtopics_truthy (subs : list pyval) (x : pyval) :
  scan_subtopics subs = Return (Some x) -> truthy x = true.
Proof.
  induction subs as [| sub rest IH]; simpl; [discriminate |].
  destruct (entry_answer sub) as [[v |] | e] eqn:E; [| exact IH | discriminate].
  intros H. injection H as <-. exact (entry_answer_truthy _ _ E).
Qed.

Lemma scan_topics_truthy (topics : list pyval) (x : pyval) :
  scan_topics topics = Return (Some x) -> truthy x = true.
Proof.
  induction topics as [| topic rest IH]; simpl; [discriminate |].
  destruct (entry_answer topic) as [[v |] | e] eqn:E; [| | discriminate].
  - intros H. injection H as <-. exact (entry_answer_truthy _ _ E).
  - destruct (py_get topic "Topics" (VList [])) as [subs | e]; [| discriminate].
    destruct (py_iter subs) as [subs' | e]; [| discriminate].
    destruct (scan_subtopics subs') as [[v |] | e] eqn:S;
      [| exact IH | discriminate].
    intros H. injection H as <-. exact (scan_subtopics_truthy _ _ S).
Qed.

(** X19: whatever the search service answers, a value that
    [duckduckgo_search] returns is never empty: it is true in Python, so
    not [None], not [""], not an empty list. *)
Theorem duckduckgo_answer_not_empty
        (query : string) (sent : list Request) (v : pyval) :
  snd (duckduckgo_search query sent) = Return v -> truthy v = true.
Proof.
  unfold duckduckgo_search, bind, client_get, lift.
  match goal with
  | |- context [http_get ?r] => destruct (http_get r) as [resp | e]
  end; [| discriminate].
  destruct (resp_json resp) as [data | e]; [| discriminate].
  cbn [snd]. unfold instant_answer.
  destruct (py_get data "AbstractText" VNone) as [text | e]; [| discriminate].
  destruct (truthy text) eqn:Ht.
  - destruct (py_get data "AbstractURL" (VStr "")) as [url | e]; [| discriminate].
    intros H. injection H as <-. now apply with_url_truthy.
  - destruct (py_get data "RelatedTopics" (VList [])) as [related | e];
      [| discriminate].
    destruct (py_iter related) as [topics | e]; [| discriminate].
    destruct (scan_topics topics) as [[x |] | e] eqn:S; [| | discriminate].
    + intros H. injection H as <-. exact (scan_topics_truthy _ _ S).
    + intros H. injection H as <-. reflexivity.
Qed.

(** X20: a topic that has a text ends the search: entries after it are
    not looked at, so they may be anything, and those before it only have
    to be objects without text and without sub-topics. *)
Theorem scan_topics_stops_at_first_text
        (before after : list pyval) (topic : pyval) (x : pyval) :
  Forall (fun t => entry_answer t = Return None
                   /\ py_get t "Topics" (VList []) = Return (VList [])) before ->
  entry_answer topic = Return (Some x) ->
  scan_topics (before ++ topic :: after)%list = Return (Some x).
Proof.
  intros Hbefore Htopic.
  induction Hbefore as [| t before [Ht Hsubs] _ IH]; simpl.
  - now rewrite Htopic.
  - now rewrite Ht, Hsubs.
Qed.

(** X21: the number of headlines: [latest_news] keeps the first [count]
    items when [count] is not negative, and all but the last [-count] when
    it is negative; never more than the feed has, never fewer than none. *)
Theorem headlines_count
        (items : list (option string * option string)) (count i : Z) :
  Z.of_nat (List.length (headlines i (slice_to items count)))
  = (if 0 <=? count
     then Z.min count (Z.of_nat (List.length items))
     else Z.max 0 (Z.of_nat (List.length items) + count))%Z.
Proof.
  assert (Hlen : forall l j, List.length (headlines j l) = List.length l).
  { induction l as [| [title link] l IH]; intros j; simpl; [reflexivity |].
    now rewrite IH. }
  rewrite Hlen. unfold slice_to.
  destruct (Z.leb_spec 0 count) as [Hpos | Hneg]; rewrite length_firstn; lia.
Qed.

(** X22: the headlines are numbered in order from the start value, each
    with the title and the link of its item, [None] standing for a missing
    one. *)
Theorem headlines_numbered
        (items : list (option string * option string)) (i : Z) (k : nat) :
  nth_error (headlines i items) k
  = match nth_error items k with
    | Some (title, link) =>
        Some (str_of_int (i + Z.of_nat k) ++ ". " ++ text_of title ++ " — "
              ++ text_of link)
    | None => None
    end.
Proof.
  revert i k. induction items as [| [title link] items IH]; intros i k.
  - now destruct k.
  - destruct k as [| k]; simpl.
    + now rewrite Z.add_0_r.
    + rewrite IH. replace (i + 1 + Z.of_nat k)%Z with (i + Z.pos (Pos.of_succ_nat k))%Z
        by lia. reflexivity.
Qed.

(** X23: when the geocoding answer has no [results], or an empty or null
    one, [weather] returns the not-found text for the location and has sent
    the geocoding request only: no forecast is asked for. *)
Theorem weather_location_not_found
        (location : string) (sent : list Request)
        (geo : Response) (body : pydict) :
  http_get (mkRequest "https://geocoding-api.open-meteo.com/v1/search"
              [("name", VStr location); ("count", VInt 1)] [] "10.0")
  = Return geo ->
  resp_json geo = Return (VDict body) ->
  dict_get body "results" = None
  \/ (exists found, dict_get body "results" = Some found /\ truthy found = false) ->
  weather location sent
  = (app sent [mkRequest "https://geocoding-api.open-meteo.com/v1/search"
                 [("name", VStr location); ("count", VInt 1)] [] "10.0"],
     Return ("❌ Location not found: " ++ location)).
Proof.
  intros Hgeo Hjson Hresults.
  unfold weather, bind, client_get, lift. rewrite Hgeo, Hjson.
  unfold py_get.
  destruct Hresults as [-> | (found & -> & Hfalse)]; [reflexivity |].
  now rewrite Hfalse.
Qed.

(** X24: [weather] sends the geocoding request first and at most one
    request after it, whatever the network answers. *)
Theorem weather_at_most_two_requests (location : string) (sent : list Request) :
  exists later,
    fst (weather location sent)
    = app sent
        (mkRequest "https://geocoding-api.open-meteo.com/v1/search"
           [("name", VStr location); ("count", VInt 1)] [] "10.0" :: later)
    /\ List.length later <= 1.
Proof.
  unfold weather, bind, client_get, lift.
  repeat match goal with
         | |- context [http_get ?r] =>
             lazymatch r with
             | context [VBool] => fail
             | _ => destruct (http_get r)
             end
         | |- context [match ?x with Return _ => _ | Raise _ => _ end] =>
             lazymatch x with
             | context [http_get] => fail
             | _ => destruct x
             end
         | |- context [if ?b then _ else _] => destruct b
         end;
    cbn [fst];
    try (exists []; split; [reflexivity | simpl; lia]);
    repeat match goal with
           | |- context [http_get ?r] => destruct (http_get r)
           | |- context [match ?x with Return _ => _ | Raise _ => _ end] =>
               destruct x
           end;
    cbn [fst]; rewrite <- ?app_assoc;
    (eexists; split; [reflexivity | simpl; lia]).
Qed.
End MoreMultiTools.

(** ** The chat client *)

Section Client.
Context {txt : PyText} {case : PyCase} {agent : Agent} {tty : Terminal}.
Import ChatClient.

Lemma chat_ignores_after_quit
      (k : nat) (before after : list string) (line : string) :
  quits (str_strip line) = true ->
  chat k (before ++ line :: after)%list = chat k (before ++ [line])%list.
Proof.
  intros Hquit. revert k.
  induction before as [| l before IH]; intros k; simpl.
  - destruct (input_fault k); [reflexivity |]. now rewrite Hquit.
  - destruct (input_fault k); [reflexivity |].
    destruct (quits (str_strip l)); [reflexivity |].
    destruct (agent_run k (str_strip l)); [| reflexivity].
    destruct (print_fault (S k) _); [reflexivity |].
    now rewrite IH.
Qed.

(** X25: the client stops at the first line that is blank or is [exit] or
    [/exit] in any letter case: what is typed after such a line is never
    read, printed or sent to the model. *)
Theorem main_ignores_after_quit
        (before after : list string) (line : string) :
  quits (str_strip line) = true ->
  main (before ++ line :: after)%list = main (before ++ [line])%list.
Proof.
  intros Hquit. unfold main. now rewrite (chat_ignores_after_quit 0 _ after).
Qed.

Lemma chat_ends_when_agent_raises
      (k : nat) (before after : list string) (line : string) (e : exn) :
  never_fails tty ->
  answered k before = true ->
  quits (str_strip line) = false ->
  agent_run (k + List.length before) (str_strip line) = Raise e ->
  exists events,
    chat k (before ++ line :: after)%list
    = ((events ++ [Asked (str_strip line)])%list, Raise e)
    /\ asked events = map str_strip before.
Proof.
  intros [Hin Hout] Hbefore Hline Hrun. revert k Hbefore Hrun.
  induction before as [| l before IH]; intros k Hbefore Hrun.
  - cbn [app chat]. rewrite Hin, Hline.
    rewrite Nat.add_0_r in Hrun. rewrite Hrun.
    exists [Prompted "You: "]. split; reflexivity.
  - cbn [answered] in Hbefore.
    apply andb_true_iff in Hbefore as [Hbefore Hrest].
    apply andb_true_iff in Hbefore as [Hl Hanswer].
    apply negb_true_iff in Hl.
    cbn [app chat]. rewrite Hin, Hl.
    destruct (agent_run k (str_strip l)) as [output |]; [| discriminate Hanswer].
    rewrite Hout.
    destruct (IH (S k) Hrest) as (events & -> & Hasked).
    { cbn [List.length] in Hrun. rewrite Nat.add_succ_r in Hrun. exact Hrun. }
    exists (Prompted "You: " :: Asked (str_strip l)
            :: Printed ("Bot: " ++ output) :: events).
    split; [reflexivity |]. cbn [asked map]. now rewrite Hasked.
Qed.

(** X26: the loop has no handler around [agent.run].  On a terminal that
    does not fail, when the agent answers the lines typed first, none of
    which quits, and raises on the next line, the client ends there with
    that exception: the text sent to the agent is the last thing it does,
    whatever is typed after that line, and before it the agent was sent the
    lines typed first, each stripped, once and in order. *)
Theorem main_ends_when_agent_raises
        (before after : list string) (line : string) (e : exn) :
  never_fails tty ->
  answered 0 before = true ->
  quits (str_strip line) = false ->
  agent_run (List.length before) (str_strip line) = Raise e ->
  exists events,
    main (before ++ line :: after)%list
    = ((events ++ [Asked (str_strip line)])%list, Raise e)
    /\ asked events = map str_strip before.
Proof.
  intros Htty Hbefore Hline Hrun. unfold main.
  destruct (chat_ends_when_agent_raises 0 before after line e
              Htty Hbefore Hline Hrun) as (events & -> & Hasked).
  destruct Htty as [_ Hout]. rewrite Hout.
  exists (Printed banner :: events). split; [reflexivity | exact Hasked].
Qed.

Lemma chat_asks_in_order (k : nat) (console : list string) :
  never_fails tty ->
  (forall j text, exists output, agent_run j text = Return output) ->
  asked (fst (chat k console))
  = map str_strip (take_until (fun line => quits (str_strip line)) console)
  /\ snd (chat k console) = Return tt.
Proof.
  intros [Hin Hout] Hagent. revert k.
  induction console as [| l console IH]; intros k; cbn [chat]; rewrite Hin.
  - unfold goodbye. rewrite Hout. split; reflexivity.
  - cbn [take_until]. destruct (quits (str_strip l)).
    + unfold goodbye. rewrite Hout. split; reflexivity.
    + destruct (Hagent k (str_strip l)) as [output ->]. rewrite Hout.
      destruct (IH (S k)) as [Hasked Hend].
      destruct (chat (S k) console) as [events r].
      cbn [fst snd asked map] in *. now rewrite Hasked, Hend.
Qed.

(** X27: with an agent that always answers, on a terminal that does not
    fail, the client sends to the model exactly the lines typed before the
    first quitting line, each stripped, once and in order, and ends
    normally. *)
Theorem main_asks_in_order (console : list string) :
  never_fails tty ->
  (forall j text, exists output, agent_run j text = Return output) ->
  asked (fst (main console))
  = map str_strip (take_until (fun line => quits (str_strip line)) console)
  /\ snd (main console) = Return tt.
Proof.
  intros Htty Hagent. unfold main.
  destruct (chat_asks_in_order 0 console Htty Hagent) as [Hasked Hend].
  destruct Htty as [_ Hout]. rewrite Hout.
  destruct (chat 0 console) as [events r]. cbn [fst snd asked] in *.
  now split.
Qed.
End Client.

(** ** The seeding script *)

(** On the journal engine the script commits, in this order: the three
    drops, the three table definitions, five users, five products and
    twenty orders, each order made of four draws in a row. *)
Lemma seeding_journal_eq (os : Entropy) :
  seeding_journal os
  = ([("DROP TABLE IF EXISTS orders;", None);
      ("DROP TABLE IF EXISTS products;", None);
      ("DROP TABLE IF EXISTS users;", None);
      (CreateDb.create_users, None); (CreateDb.create_products, None);
      (CreateDb.create_orders, None)]
     ++ [user_row os 0 "Alice"; user_row os 1 "Bob"; user_row os 2 "Charlie";
         user_row os 3 "Diana"; user_row os 4 "Eve"]
     ++ [product_row "UltraWidget" "19.99"; product_row "MegaGadget" "29.95";
         product_row "Thingamajig" "9.5"; product_row "Doohickey" "14.75";
         product_row "Whatsit" "4.2"]
     ++ map (order_row os) (seq 0 20))%list.
Proof. vm_compute. reflexivity. Qed.

(** X28: when [random.randint] keeps to the range it is asked for, every
    order row the script inserts refers to a user id and a product id
    between 1 and 5, the ids of the rows seeded before it, and has a
    quantity between 1 and 10. *)
Theorem seeded_orders_in_range (os : Entropy) (row : pyval) :
  in_range os ->
  In ("INSERT INTO orders (user_id, product_id, quantity, order_date) VALUES (?, ?, ?, ?);",
      Some row) (seeding_journal os) ->
  exists user_id product_id quantity order_date,
    row = VList [VInt user_id; VInt product_id; VInt quantity; VStr order_date]
    /\ (1 <= user_id <= 5)%Z /\ (1 <= product_id <= 5)%Z
    /\ (1 <= quantity <= 10)%Z.
Proof.
  intros Hrange Hin. rewrite seeding_journal_eq in Hin.
  apply in_app_or in Hin as [Hin | Hin].
  { repeat (destruct Hin as [Hin | Hin]; [discriminate Hin |]).
    contradiction. }
  apply in_app_or in Hin as [Hin | Hin].
  { unfold user_row in Hin.
    repeat (destruct Hin as [Hin | Hin]; [discriminate Hin |]).
    contradiction. }
  apply in_app_or in Hin as [Hin | Hin].
  { unfold product_row in Hin.
    repeat (destruct Hin as [Hin | Hin]; [discriminate Hin |]).
    contradiction. }
  apply in_map_iff in Hin as (i & Hrow & _).
  unfold order_row in Hrow. injection Hrow as <-.
  do 4 eexists. split; [reflexivity |].
  repeat split; apply Hrange; lia.
Qed.

(** The catalog engine, statement by statement. *)
Module CatalogSteps.
Import Catalog.

Lemma same_name_sym (a b : string) : same_name a b = same_name b a.
Proof. unfold same_name. apply String.eqb_sym. Qed.

Lemma has_table_app (t : string) (a b : list string) :
  has_table t (a ++ b)%list = has_table t a || has_table t b.
Proof. unfold has_table. apply existsb_app. Qed.

Lemma has_table_drop (t t' : string) (db : list string) :
  has_table t (drop_table t' db) = negb (same_name t' t) && has_table t db.
Proof.
  unfold has_table, drop_table, same_name.
  induction db as [| x db IH]; simpl.
  - now rewrite andb_false_r.
  - destruct (String.eqb_spec (upper_ascii t') (upper_ascii x)) as [E' | N'];
      simpl; rewrite IH.
    + destruct (String.eqb_spec (upper_ascii t) (upper_ascii x)) as [E | N];
        simpl; [| reflexivity].
      rewrite E', <- E.
      destruct (String.eqb_spec (upper_ascii t) (upper_ascii t)) as [_ | n];
        [reflexivity | now elim n].
    + destruct (String.eqb_spec (upper_ascii t) (upper_ascii x)) as [E | N];
        simpl; [| reflexivity].
      destruct (String.eqb_spec (upper_ascii t') (upper_ascii t)) as [E2 | _];
        [| reflexivity].
      elim N'. now rewrite E2.
Qed.

Lemma drop_orders (c : Conn) :
  cat_execute c "DROP TABLE IF EXISTS orders;" None = dropped c "orders".
Proof. reflexivity. Qed.

Lemma drop_products (c : Conn) :
  cat_execute c "DROP TABLE IF EXISTS products;" None = dropped c "products".
Proof. reflexivity. Qed.

Lemma drop_users (c : Conn) :
  cat_execute c "DROP TABLE IF EXISTS users;" None = dropped c "users".
Proof. reflexivity. Qed.

Lemma create_new_table (c : Conn) (q t : string) :
  makes q t ->
  has_table t (work c) = false ->
  cat_execute c q None
  = schema_change c
      (if has_table "sqlite_sequence" (work c ++ [t])
       then work c ++ [t] else (work c ++ [t]) ++ ["sqlite_sequence"])%list
      (made c ++ [t])%list (emails c).
Proof.
  intros (Hnl & Hnd & Hcreate & Hauto & Hscript) Hnew.
  unfold cat_execute. cbv zeta.
  rewrite Hnl, Hnd, Hcreate, Hnew, Hauto, Hscript. cbn [andb].
  now destruct (has_table "sqlite_sequence" (work c ++ [t])).
Qed.

Lemma insert_existing (c : Conn) (q t : string) (params : option pyval) :
  inserts q t ->
  has_table t (work c) = true ->
  cat_execute c q params = insert_row c q params.
Proof.
  intros (Hnl & Hnd & Hnc & Hins) Hhas. unfold cat_execute. cbv zeta.
  now rewrite Hnl, Hnd, Hnc, Hins, Hhas.
Qed.

Lemma create_users_makes : makes CreateDb.create_users "users".
Proof.
  unfold makes. split; [| split; [| split; [| split]]]; vm_compute; reflexivity.
Qed.

Lemma create_products_makes : makes CreateDb.create_products "products".
Proof.
  unfold makes. split; [| split; [| split; [| split]]]; vm_compute; reflexivity.
Qed.

Lemma create_orders_makes : makes CreateDb.create_orders "orders".
Proof.
  unfold makes. split; [| split; [| split; [| split]]]; vm_compute; reflexivity.
Qed.

Lemma insert_users_inserts : inserts insert_users "users".
Proof.
  unfold inserts. split; [| split; [| split]]; vm_compute; reflexivity.
Qed.

Lemma insert_products_inserts : inserts insert_products "products".
Proof.
  unfold inserts. split; [| split; [| split]]; vm_compute; reflexivity.
Qed.

Lemma insert_orders_inserts : inserts insert_orders "orders".
Proof.
  unfold inserts. split; [| split; [| split]]; vm_compute; reflexivity.
Qed.

Lemma insert_user (c : Conn) (name email signup : string) :
  has_table "users" (work c) = true ->
  has_table "users" (made c) = true ->
  existsb (String.eqb email) (emails c) = false ->
  cat_execute c insert_users (Some (VList [VStr name; VStr email; VStr signup]))
  = inserted c (emails c ++ [email]).
Proof.
  intros Hw Hm He.
  rewrite (insert_existing c insert_users "users" _ insert_users_inserts Hw).
  unfold insert_row. rewrite String.eqb_refl, Hm, He. reflexivity.
Qed.

Lemma insert_product (c : Conn) (name price : string) :
  has_table "products" (work c) = true ->
  has_table "products" (made c) = true ->
  String.eqb price "nan" = false ->
  cat_execute c insert_products (Some (VList [VStr name; VFloat price]))
  = inserted c (emails c).
Proof.
  intros Hw Hm Hp.
  rewrite (insert_existing c insert_products "products" _
             insert_products_inserts Hw).
  unfold insert_row.
  replace (String.eqb insert_products insert_users) with false
    by (vm_compute; reflexivity).
  rewrite String.eqb_refl, Hm, Hp. reflexivity.
Qed.

Lemma insert_order (c : Conn) (user_id product_id quantity : Z)
      (order_date : string) :
  has_table "orders" (work c) = true ->
  has_table "orders" (made c) = true ->
  cat_execute c insert_orders
    (Some (VList [VInt user_id; VInt product_id; VInt quantity; VStr order_date]))
  = inserted c (emails c).
Proof.
  intros Hw Hm.
  rewrite (insert_existing c insert_orders "orders" _ insert_orders_inserts Hw).
  unfold insert_row.
  replace (String.eqb insert_orders insert_users) with false
    by (vm_compute; reflexivity).
  replace (String.eqb insert_orders insert_products) with false
    by (vm_compute; reflexivity).
  rewrite String.eqb_refl, Hm. reflexivity.
Qed.
End CatalogSteps.

Lemma bind_return {S A B : Type} (m : M S A) (k : A -> M S B) (st st' : S) (a : A) :
  m st = (st', Return a) -> bind m k st = k a st'.
Proof. intros H. unfold bind. now rewrite H. Qed.

Section SeedingAnyCatalog.
Context {os : Entropy}.
Import Catalog CatalogSteps.

Local Abbreviation proc := (@CreateDb.mkProc engine).
Local Abbreviation cur_execute := (@CreateDb.cur_execute engine).

Lemma step_drop (q t : string) (d : list string) (n : nat) :
  (forall c, cat_execute c q None = dropped c t) ->
  cur_execute q None (proc (mkConn d d false [] []) n)
  = (proc (mkConn (drop_table t d) (drop_table t d) false [] []) n, Return tt).
Proof.
  intros H. unfold CreateDb.cur_execute. cbn [execute engine CreateDb.conn].
  rewrite H. unfold dropped, schema_change.
  cbn [in_transaction work made emails disk drop_table filter CreateDb.draws].
  now destruct (same_name t "users").
Qed.

Lemma step_create (q t : string) (d m : list string) (n : nat) :
  makes q t ->
  has_table t d = false ->
  cur_execute q None (proc (mkConn d d false m []) n)
  = (let d' := (if has_table "sqlite_sequence" (d ++ [t])
                then d ++ [t] else (d ++ [t]) ++ ["sqlite_sequence"])%list in
     (proc (mkConn d' d' false (m ++ [t])%list []) n, Return tt)).
Proof.
  intros Hq Hnew.
  unfold CreateDb.cur_execute. cbn [execute engine CreateDb.conn].
  rewrite (create_new_table (mkConn d d false m []) q t Hq Hnew).
  reflexivity.
Qed.

Lemma create_tables_catalog (db0 : list string) (n : nat) :
  @CreateDb.create_tables engine (proc (mkConn db0 db0 false [] []) n)
  = (let rest := drop_table "users" (drop_table "products" (drop_table "orders" db0)) in
     let final := (rest ++ "users"
                   :: (if has_table "sqlite_sequence" rest then [] else ["sqlite_sequence"])
                   ++ ["products"; "orders"])%list in
     (proc (mkConn final final false ["users"; "products"; "orders"] []) n,
      Return tt)).
Proof.
  unfold CreateDb.create_tables.
  rewrite (bind_return _ _ _ _ _ (step_drop _ "orders" db0 n drop_orders)).
  rewrite (bind_return _ _ _ _ _ (step_drop _ "products" _ n drop_products)).
  rewrite (bind_return _ _ _ _ _ (step_drop _ "users" _ n drop_users)).
  set (rest := drop_table "users" (drop_table "products" (drop_table "orders" db0))).
  assert (Hu : has_table "users" rest = false).
  { unfold rest. rewrite has_table_drop. reflexivity. }
  assert (Hp : has_table "products" rest = false).
  { unfold rest. rewrite !has_table_drop. reflexivity. }
  assert (Ho : has_table "orders" rest = false).
  { unfold rest. rewrite !has_table_drop. cbn [negb andb].
    rewrite andb_false_r. reflexivity. }
  assert (Hseq : forall d, has_table "sqlite_sequence" (d ++ ["sqlite_sequence"]) = true).
  { intros d. rewrite has_table_app. apply orb_true_r. }
  rewrite (bind_return _ _ _ _ _
             (step_create CreateDb.create_users "users" rest [] n
                create_users_makes Hu)).
  cbv zeta. rewrite (has_table_app _ rest ["users"]).
  destruct (has_table "sqlite_sequence" rest) eqn:Hs; cbn [orb has_table existsb].
  - rewrite (bind_return _ _ _ _ _
               (step_create CreateDb.create_products "products" (rest ++ ["users"])
                  ([] ++ ["users"]) n create_products_makes
                  ltac:(rewrite has_table_app, Hp; reflexivity))).
    cbv zeta. rewrite (has_table_app _ (rest ++ ["users"]) ["products"]).
    rewrite (has_table_app _ rest ["users"]), Hs. cbn [orb].
    rewrite (step_create CreateDb.create_orders "orders"
               ((rest ++ ["users"]) ++ ["products"])
               (([] ++ ["users"]) ++ ["products"]) n create_orders_makes
               ltac:(rewrite !has_table_app, Ho; reflexivity)).
    cbv zeta. rewrite !has_table_app, Hs. cbn [orb].
    rewrite <- !app_assoc. reflexivity.
  - change (same_name "sqlite_sequence" "users" || false) with false.
    cbv iota.
    rewrite (bind_return _ _ _ _ _
               (step_create CreateDb.create_products "products"
                  ((rest ++ ["users"]) ++ ["sqlite_sequence"])
                  ([] ++ ["users"]) n create_products_makes
                  ltac:(rewrite !has_table_app, Hp; reflexivity))).
    cbv zeta. rewrite (has_table_app _ _ ["products"]), Hseq. cbn [orb].
    rewrite (step_create CreateDb.create_orders "orders"
               (((rest ++ ["users"]) ++ ["sqlite_sequence"]) ++ ["products"])
               (([] ++ ["users"]) ++ ["products"]) n create_orders_makes
               ltac:(rewrite !has_table_app, Ho; reflexivity)).
    cbv zeta. rewrite (has_table_app _ _ ["orders"]), (has_table_app _ _ ["products"]), Hseq.
    cbn [orb]. rewrite <- !app_assoc. reflexivity.
Qed.

(** One user goes in: one draw, and the mail address is recorded. *)
Lemma step_user (name : string) (d w m es : list string) (t : bool) (n : nat) :
  has_table "users" w = true ->
  has_table "users" m = true ->
  existsb (String.eqb (lower_ascii name ++ "@example.com")) es = false ->
  bind (CreateDb.random_randint 1 365)
    (fun d =>
       cur_execute "INSERT INTO users (name, email, signup_date) VALUES (?, ?, ?);"
         (Some (VList [VStr name; VStr (lower_ascii name ++ "@example.com");
                       VStr (isoformat_days_ago (fst d) (snd d))])))
    (proc (mkConn d w t m es) n)
  = (proc (mkConn d w true m (es ++ [lower_ascii name ++ "@example.com"])) (S n),
     Return tt).
Proof.
  intros Hw Hm He.
  unfold bind, CreateDb.random_randint, CreateDb.cur_execute.
  cbn [execute engine CreateDb.conn CreateDb.draws fst snd].
  change "INSERT INTO users (name, email, signup_date) VALUES (?, ?, ?);"
    with insert_users.
  rewrite (insert_user (mkConn d w t m es) name _ _ Hw Hm He).
  reflexivity.
Qed.

Lemma seed_users_catalog (d w : list string) (t : bool) (n : nat) :
  has_table "users" w = true ->
  CreateDb.seed_users 5 (proc (mkConn d w t ["users"; "products"; "orders"] []) n)
  = (proc (mkConn d w true ["users"; "products"; "orders"]
             ["alice@example.com"; "bob@example.com"; "charlie@example.com";
              "diana@example.com"; "eve@example.com"])
       (5 + n),
     Return tt).
Proof.
  intros Hw. unfold CreateDb.seed_users. cbn [firstn CreateDb.for_each].
  pose (m := ["users"; "products"; "orders"]).
  pose (mail := fun name => lower_ascii name ++ "@example.com").
  pose (e1 := ([] ++ [mail "Alice"])%list).
  pose (e2 := (e1 ++ [mail "Bob"])%list).
  pose (e3 := (e2 ++ [mail "Charlie"])%list).
  pose (e4 := (e3 ++ [mail "Diana"])%list).
  rewrite (bind_return _ _ _ _ _
             (step_user "Alice" d w m [] t n Hw eq_refl eq_refl)).
  rewrite (bind_return _ _ _ _ _
             (step_user "Bob" d w m e1 true (S n) Hw eq_refl eq_refl)).
  rewrite (bind_return _ _ _ _ _
             (step_user "Charlie" d w m e2 true (S (S n)) Hw eq_refl eq_refl)).
  rewrite (bind_return _ _ _ _ _
             (step_user "Diana" d w m e3 true (S (S (S n))) Hw eq_refl eq_refl)).
  rewrite (bind_return _ _ _ _ _
             (step_user "Eve" d w m e4 true (S (S (S (S n)))) Hw eq_refl eq_refl)).
  reflexivity.
Qed.

Lemma for_each_keeps {A : Type} (P : A -> Prop) (w m : list string)
      (xs : list A) (body : A -> M (@CreateDb.Proc engine) unit) :
  (forall x (p : @CreateDb.Proc engine),
      P x ->
      work (CreateDb.conn p) = w -> made (CreateDb.conn p) = m ->
      exists p' : @CreateDb.Proc engine,
        body x p = (p', Return tt)
        /\ work (CreateDb.conn p') = w /\ made (CreateDb.conn p') = m) ->
  Forall P xs ->
  forall p : @CreateDb.Proc engine,
    work (CreateDb.conn p) = w -> made (CreateDb.conn p) = m ->
    exists p' : @CreateDb.Proc engine,
      CreateDb.for_each xs body p = (p', Return tt)
      /\ work (CreateDb.conn p') = w /\ made (CreateDb.conn p') = m.
Proof.
  intros Hbody Hxs. induction Hxs as [| x xs Hx _ IH]; intros p Hw Hm; simpl.
  - exists p. now repeat split.
  - destruct (Hbody x p Hx Hw Hm) as (p1 & H1 & Hw1 & Hm1).
    rewrite (bind_return _ _ _ _ _ H1). exact (IH p1 Hw1 Hm1).
Qed.

Lemma seed_products_keeps (w m : list string) (p : @CreateDb.Proc engine) :
  has_table "products" w = true -> has_table "products" m = true ->
  work (CreateDb.conn p) = w -> made (CreateDb.conn p) = m ->
  exists p' : @CreateDb.Proc engine,
    CreateDb.seed_products p = (p', Return tt)
    /\ work (CreateDb.conn p') = w /\ made (CreateDb.conn p') = m.
Proof.
  intros Hpw Hpm Hw Hm. unfold CreateDb.seed_products.
  apply (for_each_keeps (fun np => String.eqb (snd np) "nan" = false) w m);
    [| repeat constructor | exact Hw | exact Hm].
  intros np q Hprice Hqw Hqm.
  unfold CreateDb.cur_execute. cbn [execute engine].
  change "INSERT INTO products (name, price) VALUES (?, ?);" with insert_products.
  rewrite (insert_product (CreateDb.conn q) (fst np) (snd np))
    by (rewrite ?Hqw, ?Hqm; assumption).
  eexists. split; [reflexivity |]. cbn [CreateDb.conn work made]. now split.
Qed.

Lemma seed_orders_keeps (w m : list string) (p : @CreateDb.Proc engine) :
  has_table "orders" w = true -> has_table "orders" m = true ->
  work (CreateDb.conn p) = w -> made (CreateDb.conn p) = m ->
  exists p' : @CreateDb.Proc engine,
    CreateDb.seed_orders 20 p = (p', Return tt)
    /\ work (CreateDb.conn p') = w /\ made (CreateDb.conn p') = m.
Proof.
  intros How Hom Hw Hm. unfold CreateDb.seed_orders.
  apply (for_each_keeps (fun _ => True) w m);
    [| apply Forall_forall; intros; exact I | exact Hw | exact Hm].
  intros i q _ Hqw Hqm.
  unfold bind, CreateDb.random_randint, CreateDb.cur_execute.
  cbn [execute engine CreateDb.conn CreateDb.draws fst snd].
  change "INSERT INTO orders (user_id, product_id, quantity, order_date) VALUES (?, ?, ?, ?);"
    with insert_orders.
  rewrite insert_order by (rewrite ?Hqw, ?Hqm; assumption).
  eexists. split; [reflexivity |]. cbn [CreateDb.conn work made]. now split.
Qed.

(** X29: on the catalog engine the script can be run on any database,
    whatever tables it holds and whatever the draws: no statement fails,
    the tables [users], [products] and [orders] are dropped and made anew,
    [sqlite_sequence] is added unless it is there, and every other table
    is kept. *)
Theorem seeding_any_catalog (db0 : list string) :
  @CreateDb.main engine os db0
  = (let rest := drop_table "users" (drop_table "products" (drop_table "orders" db0)) in
     (rest ++ "users"
      :: (if has_table "sqlite_sequence" rest then [] else ["sqlite_sequence"])
      ++ ["products"; "orders"])%list,
     Return tt).
Proof.
  cbv zeta.
  set (rest := drop_table "users" (drop_table "products" (drop_table "orders" db0))).
  set (final := (rest ++ "users"
                 :: (if has_table "sqlite_sequence" rest then [] else ["sqlite_sequence"])
                 ++ ["products"; "orders"])%list).
  assert (Hu : has_table "users" final = true).
  { unfold final. rewrite has_table_app. apply orb_true_r. }
  assert (Hp : has_table "products" final = true).
  { unfold final. rewrite has_table_app.
    destruct (has_table "sqlite_sequence" rest); apply orb_true_r. }
  assert (Ho : has_table "orders" final = true).
  { unfold final. rewrite has_table_app.
    destruct (has_table "sqlite_sequence" rest); apply orb_true_r. }
  unfold CreateDb.main. cbn [connect engine].
  rewrite (bind_return _ _ _ _ _ (create_tables_catalog db0 0)).
  cbv zeta. fold rest. fold final.
  rewrite (bind_return _ _ _ _ _ (seed_users_catalog final final false 0 Hu)).
  match goal with
  | |- context [bind CreateDb.seed_products _ ?p1] =>
      destruct (seed_products_keeps final ["users"; "products"; "orders"] p1
                  Hp eq_refl eq_refl eq_refl) as (p2 & E2 & W2 & M2)
  end.
  rewrite (bind_return _ _ _ _ _ E2).
  destruct (seed_orders_keeps final ["users"; "products"; "orders"] p2
              Ho eq_refl W2 M2) as (p3 & E3 & W3 & _).
  rewrite E3. cbn [commit close engine disk]. now rewrite W3.
Qed.
End SeedingAnyCatalog.

(** ** The further properties on closed inputs *)

Lemma write_query_refuses_select_witness :
  call_tool_journal "write_query" (Some [("query", VStr " select * from users")])
    journal_server
  = (journal_server,
     Return [mkText "text" "Error: write_query does not support SELECT"]).
Proof.
  exact (@write_query_refuses_select ascii_text Journal.engine
           [("query", VStr " select * from users")] " select * from users"
           journal_server eq_refl eq_refl).
Defined.

Lemma write_query_listed_committed_witness :
  call_tool_journal "write_query"
    (Some [("query", VStr "insert into notes values ('a')")]) journal_server
  = (mkState ([("insert into notes values ('a')", None)] : @Db Journal.engine)
       [] quiet_session,
     Return [mkText "text" "[{'affected_rows': 1}]"]).
Proof.
  exact (@write_query_listed_committed ascii_text Journal.engine
           [("query", VStr "insert into notes values ('a')")]
           "insert into notes values ('a')" "INSERT" journal_server
           (Journal.mkConn [] [("insert into notes values ('a')", None)])
           (mkCursor 1 (Return []))
           eq_refl (or_introl eq_refl) eq_refl eq_refl).
Defined.

(** On the table of notes, a row inserted with [RETURNING] is not
    committed: the tool answers with the refusal of the commit, and the
    file is as it was. *)
Example write_query_returning_reports_error :
  @SqliteServer._call_tool ascii_text Notes.engine "write_query"
    (Some [("query", VStr "INSERT INTO notes (body) VALUES ('a') RETURNING id")])
    (mkState ([] : @Db Notes.engine) [] quiet_session)
  = (mkState ([] : @Db Notes.engine) [] quiet_session,
     Return [mkText "text"
               "Error: cannot commit transaction - SQL statements in progress"]).
Proof. vm_compute. reflexivity. Qed.

Lemma write_query_unlisted_not_committed_witness :
  call_tool_journal "write_query"
    (Some [("query", VStr "REPLACE INTO notes VALUES ('a')")]) journal_server
  = (journal_server, Return [mkText "text" "[]"]).
Proof.
  exact (@write_query_unlisted_not_committed ascii_text Journal.engine
           [("query", VStr "REPLACE INTO notes VALUES ('a')")]
           "REPLACE INTO notes VALUES ('a')" journal_server
           (Journal.mkConn [] [("REPLACE INTO notes VALUES ('a')", None)])
           (mkCursor 1 (Return []))
           eq_refl eq_refl eq_refl eq_refl).
Defined.

Lemma create_table_outcome_witness :
  call_tool_journal "create_table"
    (Some [("query", VStr "create table notes (body)")]) journal_server
  = (mkState ([("create table notes (body)", None)] : @Db Journal.engine)
       [] quiet_session,
     Return [mkText "text" "[{'affected_rows': 1}]"]).
Proof.
  exact (eq_trans
           (@create_table_outcome ascii_text Journal.engine
              [("query", VStr "create table notes (body)")]
              "create table notes (body)" journal_server eq_refl)
           eq_refl).
Defined.

Lemma describe_table_missing_name_witness :
  call_tool_journal "describe_table" (Some [("table_name", VInt 0)]) journal_server
  = (journal_server, Return [mkText "text" "Error: Missing 'table_name'"]).
Proof.
  exact (@describe_table_missing_name ascii_text Journal.engine
           (Some [("table_name", VInt 0)]) journal_server
           (or_intror
              (ex_intro _ [("table_name", VInt 0)]
                 (conj eq_refl
                    (or_intror (ex_intro _ (VInt 0) (conj eq_refl eq_refl))))))).
Defined.

Lemma other_tools_leave_memo_witness :
  insights (fst (call_tool_journal "write_query"
                   (Some [("query", VStr "delete from notes")])
                   (mkState ([] : @Db Journal.engine) [VStr "kept"] quiet_session)))
  = [VStr "kept"]
  /\ session (fst (call_tool_journal "write_query"
                     (Some [("query", VStr "delete from notes")])
                     (mkState ([] : @Db Journal.engine) [VStr "kept"] quiet_session)))
     = quiet_session.
Proof.
  apply (@other_tools_leave_memo ascii_text Journal.engine "write_query").
  discriminate.
Defined.

Lemma append_insight_failed_send_witness :
  call_tool_journal "append_insight" (Some [("insight", VStr "late")])
    (mkState ([] : @Db Journal.engine) []
       (mkSession [] [Some (mkExn "BrokenResourceError" "closed"); None]))
  = (mkState ([] : @Db Journal.engine) [VStr "late"] (mkSession [] [None]),
     Return [mkText "text" "Error: closed"]).
Proof.
  exact (@append_insight_failed_send ascii_text Journal.engine
           [("insight", VStr "late")] (VStr "late")
           (mkState ([] : @Db Journal.engine) []
              (mkSession [] [Some (mkExn "BrokenResourceError" "closed"); None]))
           (mkExn "BrokenResourceError" "closed") [None] eq_refl eq_refl).
Defined.

Lemma memo_last_line_counts_witness :
  last_line (@synthesize_memo ascii_text [VStr "a"; VStr "b"; VStr "c"])
  = "3 insights suggest strategic opportunities.".
Proof.
  apply (@memo_last_line_counts ascii_text [VStr "a"; VStr "b"; VStr "c"]).
  simpl. lia.
Defined.

Lemma read_resource_memo_iff_witness :
  snd (@_read_resource ascii_text Journal.engine
         (mkUrl "memo" (Some "insights") "memo://insights/archive?page=2")
         journal_server)
  = Return "No business insights have been recorded yet.".
Proof.
  destruct (@read_resource_memo_iff ascii_text Journal.engine
              (mkUrl "memo" (Some "insights") "memo://insights/archive?page=2")
              journal_server) as [_ [H _]].
  exact (H (conj eq_refl eq_refl)).
Defined.

Lemma get_prompt_returns_iff_witness :
  exists text,
    @SqlitePrompts._get_prompt ascii_text "mcp-demo" (Some [("topic", VStr "")])
    = Return (SqlitePrompts.mkGetPromptResult "Demo for topic: "
                [SqlitePrompts.mkPromptMessage "user" (mkText "text" text)]).
Proof.
  eexists.
  exact (proj1 (@get_prompt_returns_iff ascii_text "mcp-demo"
                  (Some [("topic", VStr "")]))
           [("topic", VStr "")] (VStr "") eq_refl eq_refl eq_refl).
Defined.

Lemma github_search_one_request_witness :
  fst (@GithubServer.github_search ascii_text offline
         (Some "octo") (Some "Lyon") 3 [])
  = [mkRequest "https://api.github.com/search/users"
       [("q", VStr "octo in:login+location:Lyon"); ("per_page", VInt 3)]
       [("Accept", "application/vnd.github.v3+json")] "10.0"].
Proof.
  exact (@github_search_one_request ascii_text offline
           (Some "octo") (Some "Lyon") 3 [] (or_introl eq_refl)).
Defined.

Lemma github_search_network_failure_witness :
  snd (@GithubServer.github_search ascii_text offline (Some "octo") None 5 [])
  = Raise (mkExn "ConnectError" "All connection attempts failed").
Proof.
  exact (@github_search_network_failure ascii_text offline (Some "octo") None 5 []
           (mkExn "ConnectError" "All connection attempts failed")
           (or_introl eq_refl) (fun _ => eq_refl)).
Defined.

Lemma github_search_upstream_error_witness :
  snd (@GithubServer.github_search ascii_text
         (answering (mkResponse 403 "rate limit" (Return VNone)) None)
         None (Some "Lyon") 5 [])
  = Return ("{" ++ String DQUOTE "error" ++ String DQUOTE ": "
            ++ String DQUOTE "GitHub API returned 403: rate limit"
            ++ String DQUOTE "}").
Proof.
  apply (@github_search_upstream_error ascii_text
           (answering (mkResponse 403 "rate limit" (Return VNone)) None)
           None (Some "Lyon") 5 []
           (mkResponse 403 "rate limit" (Return VNone))).
  - right. reflexivity.
  - intros r. reflexivity.
  - discriminate.
Defined.

Lemma github_search_no_items_witness :
  snd (@GithubServer.github_search ascii_text
         (answering (mkResponse 200 "" (Return (VDict [("total_count", VInt 0)])))
            None)
         (Some "octo") None 5 [])
  = Return "[]".
Proof.
  exact (@github_search_no_items ascii_text
           (answering (mkResponse 200 "" (Return (VDict [("total_count", VInt 0)])))
              None)
           (Some "octo") None 5 []
           (mkResponse 200 "" (Return (VDict [("total_count", VInt 0)])))
           [("total_count", VInt 0)]
           (or_introl eq_refl) (fun _ => eq_refl) eq_refl eq_refl eq_refl).
Defined.

Lemma github_search_user_without_login_witness :
  snd (@GithubServer.github_search ascii_text
         (answering
            (mkResponse 200 ""
               (Return (VDict [("items", VList [VDict [("id", VInt 7)]; VNone])])))
            None)
         (Some "octo") None 5 [])
  = Raise (mkExn "KeyError" "'login'").
Proof.
  exact (@github_search_user_without_login ascii_text
           (answering
              (mkResponse 200 ""
                 (Return (VDict [("items", VList [VDict [("id", VInt 7)]; VNone])])))
              None)
           (Some "octo") None 5 []
           (mkResponse 200 ""
              (Return (VDict [("items", VList [VDict [("id", VInt 7)]; VNone])])))
           [("items", VList [VDict [("id", VInt 7)]; VNone])]
           [("id", VInt 7)] [VNone]
           (or_introl eq_refl) (fun _ => eq_refl) eq_refl eq_refl eq_refl eq_refl).
Defined.

Lemma github_search_single_user_witness :
  snd (@GithubServer.github_search ascii_text
         (answering
            (mkResponse 200 ""
               (Return
                  (VDict [("items",
                           VList [VDict [("login", VStr "octo");
                                         ("html_url", VStr "https://github.com/octo")]])])))
            None)
         (Some "octo") None 5 [])
  = Return ("[{" ++ String DQUOTE "login" ++ String DQUOTE ": "
            ++ String DQUOTE "octo" ++ String DQUOTE ", "
            ++ String DQUOTE "url" ++ String DQUOTE ": "
            ++ String DQUOTE "https://github.com/octo" ++ String DQUOTE ", "
            ++ String DQUOTE "score" ++ String DQUOTE ": 0}]").
Proof.
  exact (@github_search_single_user ascii_text
           (answering
              (mkResponse 200 ""
                 (Return
                    (VDict [("items",
                             VList [VDict [("login", VStr "octo");
                                           ("html_url", VStr "https://github.com/octo")]])])))
              None)
           (Some "octo") None 5 []
           (mkResponse 200 ""
              (Return
                 (VDict [("items",
                          VList [VDict [("login", VStr "octo");
                                        ("html_url", VStr "https://github.com/octo")]])])))
           [("items",
             VList [VDict [("login", VStr "octo");
                           ("html_url", VStr "https://github.com/octo")]])]
           [("login", VStr "octo"); ("html_url", VStr "https://github.com/octo")]
           "octo" "https://github.com/octo"
           (or_introl eq_refl) (fun _ => eq_refl) eq_refl eq_refl eq_refl
           eq_refl eq_refl eq_refl).
Defined.

Lemma duckduckgo_answer_not_empty_witness :
  truthy (VStr "Rocq (https://rocq-prover.org)") = true.
Proof.
  exact (@duckduckgo_answer_not_empty ascii_text
           (answering
              (mkResponse 200 ""
                 (Return (VDict [("AbstractText", VStr "Rocq");
                                 ("AbstractURL", VStr "https://rocq-prover.org")])))
              None)
           "rocq" [] (VStr "Rocq (https://rocq-prover.org)") eq_refl).
Defined.

Lemma scan_topics_stops_at_first_text_witness :
  @MultiToolsServer.scan_topics ascii_text
    [VDict [("Name", VStr "Group")]; VDict [("Text", VStr "First")]; VInt 3]
  = Return (Some (VStr "First")).
Proof.
  apply (@scan_topics_stops_at_first_text ascii_text
           [VDict [("Name", VStr "Group")]] [VInt 3]
           (VDict [("Text", VStr "First")]) (VStr "First")).
  - constructor; [split; reflexivity | constructor].
  - reflexivity.
Defined.

Lemma weather_location_not_found_witness :
  @MultiToolsServer.weather ascii_text
    (answering (mkResponse 200 "" (Return (VDict [("results", VList [])]))) None)
    int_format "Atlantis" []
  = ([mkRequest "https://geocoding-api.open-meteo.com/v1/search"
        [("name", VStr "Atlantis"); ("count", VInt 1)] [] "10.0"],
     Return ("❌ Location not found: " ++ "Atlantis")).
Proof.
  exact (@weather_location_not_found ascii_text
           (answering (mkResponse 200 "" (Return (VDict [("results", VList [])])))
              None)
           int_format "Atlantis" []
           (mkResponse 200 "" (Return (VDict [("results", VList [])])))
           [("results", VList [])] eq_refl eq_refl
           (or_intror (ex_intro _ (VList []) (conj eq_refl eq_refl)))).
Defined.

Lemma main_ignores_after_quit_witness :
  @ChatClient.main ascii_text ascii_case echo_agent plain_terminal
    ["hello"; " EXIT "; "more"]
  = @ChatClient.main ascii_text ascii_case echo_agent plain_terminal
      ["hello"; " EXIT "].
Proof.
  exact (@main_ignores_after_quit ascii_text ascii_case echo_agent plain_terminal
           ["hello"] ["more"] " EXIT " eq_refl).
Defined.

Lemma main_ends_when_agent_raises_witness :
  exists events,
    @ChatClient.main ascii_text ascii_case (tiring_agent 1) plain_terminal
      [" hello"; "again "; "more"]
    = ((events ++ [Asked "again"])%list,
       Raise (mkExn "ModelHTTPError" "status_code: 429"))
    /\ asked events = ["hello"].
Proof.
  exact (@main_ends_when_agent_raises ascii_text ascii_case (tiring_agent 1)
           plain_terminal [" hello"] ["more"] "again "
           (mkExn "ModelHTTPError" "status_code: 429")
           (conj (fun _ => eq_refl) (fun _ _ => eq_refl))
           eq_refl eq_refl eq_refl).
Defined.

Lemma main_asks_in_order_witness :
  asked (fst (@ChatClient.main ascii_text ascii_case echo_agent plain_terminal
                [" one "; "two"; ""; "three"]))
  = ["one"; "two"]
  /\ snd (@ChatClient.main ascii_text ascii_case echo_agent plain_terminal
            [" one "; "two"; ""; "three"])
     = Return tt.
Proof.
  exact (@main_asks_in_order ascii_text ascii_case echo_agent plain_terminal
           [" one "; "two"; ""; "three"]
           (conj (fun _ => eq_refl) (fun _ _ => eq_refl))
           (fun _ text => ex_intro _ text eq_refl)).
Defined.

(** A line that cannot be decoded ends the client with the exception of
    [input]; the end of the input, and a [print] that fails, are not taken
    for it. *)
Example main_input_failure :
  @ChatClient.main ascii_text ascii_case echo_agent garbled_terminal
    ["hello"; "more"]
  = ([Printed ChatClient.banner; Prompted "You: "; Asked "hello";
      Printed "Bot: hello"; Prompted "You: "],
     Raise (mkExn "UnicodeDecodeError"
              "'utf-8' codec can't decode byte 0xff in position 0: invalid start byte")).
Proof. reflexivity. Qed.

Lemma seeded_orders_in_range_witness :
  exists user_id product_id quantity order_date,
    VList [VInt 1; VInt 1; VInt 1; VStr "2025-01-01T00:00:00"]
    = VList [VInt user_id; VInt product_id; VInt quantity; VStr order_date]
    /\ (1 <= user_id <= 5)%Z /\ (1 <= product_id <= 5)%Z
    /\ (1 <= quantity <= 10)%Z.
Proof.
  apply (seeded_orders_in_range fixed_draws).
  - intros k a b Hab. simpl. lia.
  - rewrite seeding_journal_eq.
    apply in_or_app; right. apply in_or_app; right. apply in_or_app; right.
    change (In (order_row fixed_draws 0) (map (order_row fixed_draws) (seq 0 20))).
    apply in_map. simpl. left. reflexivity.
Defined.
